(** * MarineHealthCheck: the marine health classifier and its decision evaluator

    A shallow embedding of [marine_health_testing.py] and
    [c2_branch_tests_marine_health.py].

    - Python [float] is an IEEE-754 binary64 value: it is modelled with the
      [spec_float] type of the standard library's floating-point
      specification, and [<], [<=], [>], [>=] are the IEEE comparisons
      [SFltb] and [SFleb] (every comparison with a NaN is false).
      On doubles they compare the exact values (section "Exact values").
    - A [dict] is an insertion-ordered association list (the order of
      [factors.items()] decides the order of the returned factor list).
    - [raise] is the [Raise] constructor of a small error monad. *)

From Stdlib Require Import ZArith List String Bool Lia ListSet.
From Stdlib Require Import SpecFloat Decimal.
Import ListNotations.

Set Implicit Arguments.

(* ================================================================== *)
(** ** Python floats *)

Module PyFloat.

Definition float := spec_float.

(** binary64 *)
Definition prec : Z := 53.
Definition emax : Z := 1024.

(** The well-formed members of [spec_float]: the values a Python float can
    hold. *)
Definition is_double (x : float) : Prop := valid_binary prec emax x = true.

(** An integer literal compared with a float is compared by value; every
    integer literal of the program is below 2^53, so it is the float of the
    same value. *)
Definition of_int (z : Z) : float := binary_normalize prec emax z 0 false.

(** The decimal literal [m / 10^k], correctly rounded (to nearest, ties to
    even): numerator and denominator are exact floats, so the IEEE
    division rounds the exact quotient once. *)
Definition of_decimal (m : Z) (k : nat) : float :=
  SFdiv prec emax (of_int m) (of_int (10 ^ Z.of_nat k)).

Definition neg (x : float) : float := SFopp x.

(** Reading a literal: integer part [i], fraction digits [f]. *)
Definition of_number (n : Number.number) : option float :=
  match n with
  | Number.Decimal (Decimal.Decimal (Decimal.Pos i) f) =>
      Some (of_decimal (Z.of_uint (Decimal.app i f)) (Decimal.nb_digits f))
  | Number.Decimal (Decimal.Decimal (Decimal.Neg i) f) =>
      Some (neg (of_decimal (Z.of_uint (Decimal.app i f)) (Decimal.nb_digits f)))
  | _ => None
  end.

Definition to_number (x : float) : option Number.number := None.

(** [math.isnan], [math.isinf] *)
Definition isnan (x : float) : bool :=
  match x with S754_nan => true | _ => false end.
Definition isinf (x : float) : bool :=
  match x with S754_infinity _ => true | _ => false end.

Definition ltb (x y : float) : bool := SFltb x y.
Definition leb (x y : float) : bool := SFleb x y.
Definition gtb (x y : float) : bool := SFltb y x.
Definition geb (x y : float) : bool := SFleb y x.

Definition nan : float := S754_nan.
Definition inf : float := S754_infinity false.

(** *** The order behind the comparisons

    Every float but NaN has a key in Z^3, and the IEEE comparison is the
    lexicographic comparison of the keys: sign class first, then exponent,
    then mantissa (both negated below zero). *)
Definition key : Type := (Z * Z * Z)%type.

Definition rank (x : float) : option key :=
  match x with
  | S754_nan => None
  | S754_infinity true => Some (-2, 0, 0)%Z
  | S754_finite true m e => Some (-1, - e, Z.neg m)%Z
  | S754_zero _ => Some (0, 0, 0)%Z
  | S754_finite false m e => Some (1, e, Z.pos m)%Z
  | S754_infinity false => Some (2, 0, 0)%Z
  end.

Definition key_lt (a b : key) : Prop :=
  let '(a1, a2, a3) := a in
  let '(b1, b2, b3) := b in
  (a1 < b1 \/ (a1 = b1 /\ (a2 < b2 \/ (a2 = b2 /\ a3 < b3))))%Z.

Definition key_le (a b : key) : Prop :=
  let '(a1, a2, a3) := a in
  let '(b1, b2, b3) := b in
  (a1 < b1 \/ (a1 = b1 /\ (a2 < b2 \/ (a2 = b2 /\ a3 <= b3))))%Z.

(** [x < y] and [x <= y] as propositions: the IEEE comparison holds. *)
Definition lt (x y : float) : Prop := SFltb x y = true.
Definition le (x y : float) : Prop := SFleb x y = true.

(** The same two relations read on the keys. *)
Definition rank_lt (x y : float) : Prop :=
  match rank x, rank y with
  | Some a, Some b => key_lt a b
  | _, _ => False
  end.

Definition rank_le (x y : float) : Prop :=
  match rank x, rank y with
  | Some a, Some b => key_le a b
  | _, _ => False
  end.

Definition finite (x : float) : Prop := isnan x = false /\ isinf x = false.

(** The exact value of a finite double, counted in units of 2^-1074 (the
    smallest positive double); 0 for what is not finite. *)
Definition units (x : float) : Z :=
  match x with
  | S754_finite s m e =>
      if s then (- (Z.pos m * 2 ^ (e + 1074)))%Z else (Z.pos m * 2 ^ (e + 1074))%Z
  | _ => 0%Z
  end.

End PyFloat.

Declare Scope pyfloat_scope.
Delimit Scope pyfloat_scope with py.
Notation "x <? y" := (PyFloat.ltb x y) : pyfloat_scope.
Notation "x <=? y" := (PyFloat.leb x y) : pyfloat_scope.
Notation "x >? y" := (PyFloat.gtb x y) : pyfloat_scope.
Notation "x >=? y" := (PyFloat.geb x y) : pyfloat_scope.
Notation "x < y" := (PyFloat.lt x y) : pyfloat_scope.
Notation "x <= y" := (PyFloat.le x y) : pyfloat_scope.
Notation "- x" := (PyFloat.neg x) : pyfloat_scope.

(** Numerals in [pyfloat_scope] are read the way Python reads a float
    literal: [24] is the float 24.0 and [0.02] is the binary64 number
    nearest to 2/100. *)
Number Notation spec_float PyFloat.of_number PyFloat.to_number : pyfloat_scope.
Arguments PyFloat.units x%_py.

Local Open Scope string_scope.
Local Open Scope list_scope.

(* ================================================================== *)
(** ** Python dicts, exceptions *)

Module PyDict.
Section Dict.
Variable V : Type.

(** Insertion-ordered, one entry per key. *)
Definition dict := list (string * V).

Definition empty : dict := [].

(** [d[k] = v]: overwrite in place, or append a new key at the end. *)
Fixpoint setitem (d : dict) (k : string) (v : V) : dict :=
  match d with
  | [] => [(k, v)]
  | (k', v') :: d' =>
      if String.eqb k' k then (k', v) :: d' else (k', v') :: setitem d' k v
  end.

(** [d[k]], [None] where Python raises [KeyError]. *)
Fixpoint getitem (d : dict) (k : string) : option V :=
  match d with
  | [] => None
  | (k', v') :: d' => if String.eqb k' k then Some v' else getitem d' k
  end.

Definition keys (d : dict) : list string := map fst d.
Definition values (d : dict) : list V := map snd d.
Definition items (d : dict) : list (string * V) := d.
End Dict.

Arguments empty {V}.
End PyDict.

Inductive exn : Type :=
| ValueError (msg : string)
| KeyError (key : string).

Inductive res (A : Type) : Type :=
| Ret (a : A)
| Raise (e : exn).

Arguments Ret {A} a.
Arguments Raise {A} e.

Definition bind {A B : Type} (c : res A) (k : A -> res B) : res B :=
  match c with
  | Ret a => k a
  | Raise e => Raise e
  end.

Notation "x <- c ;; k" := (bind c (fun x => k))
  (at level 61, c at next level, right associativity).
Notation "' pat <- c ;; k" := (bind c (fun x => match x with pat => k end))
  (at level 61, pat pattern, c at next level, right associativity).
Notation "c ;;; k" := (bind c (fun _ => k))
  (at level 61, right associativity).

(** [x in l] on a list of strings *)
Definition contains (x : string) (l : list string) : bool :=
  existsb (String.eqb x) l.

(** The returned [{"risk": ..., "factors": [...]}]. *)
Record RiskResult : Type := mkRiskResult {
  risk : string;
  factors : list string
}.

Import PyFloat.

(* ================================================================== *)
(** ** marine_health_testing.py *)

Module Testing.
Local Open Scope pyfloat_scope.

(** The validation loop over the four named inputs.  The inputs are floats,
    so [isinstance(val, (int, float))] holds. *)
Fixpoint check_finite (l : list (string * float)) : res unit :=
  match l with
  | [] => Ret tt
  | (name, val) :: l' =>
      if isnan val || isinf val
      then Raise (ValueError (name ++ " must be a finite number."))
      else check_finite l'
  end.

Definition bucket_temp (t : float) : string :=
  if (24 <=? t) && (t <=? 28) then "safe"
  else if ((22 <=? t) && (t <? 24)) || ((28 <? t) && (t <=? 30)) then "moderate"
  else "high".

Definition bucket_sal (s : float) : string :=
  if (30 <=? s) && (s <=? 35) then "safe"
  else if ((28 <=? s) && (s <? 30)) || ((35 <? s) && (s <=? 37)) then "moderate"
  else "high".

Definition bucket_do (o : float) : string :=
  if o >=? 6 then "safe"
  else if o <? 4 then "high"
  else "moderate".

Definition bucket_nh3 (a : float) : string :=
  if a <=? 0.02 then "safe"
  else if a >? 0.05 then "high"
  else "moderate".

Definition classify_marine_health (temp_c sal_psu do_mgL nh3_mgL : float)
  : res RiskResult :=
  check_finite [("temp_c", temp_c); ("sal_psu", sal_psu);
                ("do_mgL", do_mgL); ("nh3_mgL", nh3_mgL)] ;;;
  if (temp_c <=? 0) || (sal_psu <=? 0) || (do_mgL <=? 0) || (nh3_mgL <? 0)
  then Raise (ValueError "Invalid physical ranges.")
  else
    let factors :=
      PyDict.setitem (PyDict.setitem (PyDict.setitem (PyDict.setitem
        PyDict.empty
        "temp" (bucket_temp temp_c))
        "salinity" (bucket_sal sal_psu))
        "dissolved_oxygen" (bucket_do do_mgL))
        "ammonia" (bucket_nh3 nh3_mgL) in
    let risk :=
      if contains "high" (PyDict.values factors) then "high"
      else if contains "moderate" (PyDict.values factors) then "medium"
      else "low" in
    Ret (mkRiskResult risk
           (map fst (filter (fun kv => negb (String.eqb (snd kv) "safe"))
                            (PyDict.items factors)))).

End Testing.

(* ================================================================== *)
(** ** c2_branch_tests_marine_health.py *)

Module C2.
Local Open Scope pyfloat_scope.

Fixpoint check_finite (l : list (string * float)) : res unit :=
  match l with
  | [] => Ret tt
  | (name, val) :: l' =>
      if isnan val || isinf val
      then Raise (ValueError (name ++ " must be a finite number."))
      else check_finite l'
  end.

Definition bucket_temp (t : float) : string :=
  if (24 <=? t) && (t <=? 28) then "safe"
  else if ((22 <=? t) && (t <? 24)) || ((28 <? t) && (t <=? 30)) then "moderate"
  else "high".

Definition bucket_sal (s : float) : string :=
  if (30 <=? s) && (s <=? 35) then "safe"
  else if ((28 <=? s) && (s <? 30)) || ((35 <? s) && (s <=? 37)) then "moderate"
  else "high".

Definition bucket_do (o : float) : string :=
  if o >=? 6 then "safe"
  else if o <? 4 then "high"
  else "moderate".

Definition bucket_nh3 (a : float) : string :=
  if a <=? 0.02 then "safe"
  else if a >? 0.05 then "high"
  else "moderate".

Definition classify_marine_health (temp_c sal_psu do_mgL nh3_mgL : float)
  : res RiskResult :=
  check_finite [("temp_c", temp_c); ("sal_psu", sal_psu);
                ("do_mgL", do_mgL); ("nh3_mgL", nh3_mgL)] ;;;
  if (temp_c <=? 0) || (sal_psu <=? 0) || (do_mgL <=? 0) || (nh3_mgL <? 0)
  then Raise (ValueError "Invalid physical ranges.")
  else
    let factors :=
      PyDict.setitem (PyDict.setitem (PyDict.setitem (PyDict.setitem
        PyDict.empty
        "temp" (bucket_temp temp_c))
        "salinity" (bucket_sal sal_psu))
        "dissolved_oxygen" (bucket_do do_mgL))
        "ammonia" (bucket_nh3 nh3_mgL) in
    let risk :=
      if contains "high" (PyDict.values factors) then "high"
      else if contains "moderate" (PyDict.values factors) then "medium"
      else "low" in
    Ret (mkRiskResult risk
           (map fst (filter (fun kv => negb (String.eqb (snd kv) "safe"))
                            (PyDict.items factors)))).

Definition DECISIONS : list string :=
  [ "VAL_temp_gt0"; "VAL_sal_gt0"; "VAL_do_gt0"; "VAL_nh3_ge0";
    "T_safe_24_28"; "T_moderate_22_24_or_28_30";
    "S_safe_30_35"; "S_moderate_28_30_or_35_37";
    "DO_safe_ge6"; "DO_high_lt4";
    "NH3_safe_le_0_02"; "NH3_high_gt_0_05";
    "AGG_has_high"; "AGG_has_moderate" ].

Definition eval_decisions (temp_c sal_psu do_mgL nh3_mgL : float)
  : PyDict.dict bool :=
  let d := PyDict.empty in
  let d := PyDict.setitem d "VAL_temp_gt0" (temp_c >? 0) in
  let d := PyDict.setitem d "VAL_sal_gt0" (sal_psu >? 0) in
  let d := PyDict.setitem d "VAL_do_gt0" (do_mgL >? 0) in
  let d := PyDict.setitem d "VAL_nh3_ge0" (nh3_mgL >=? 0) in
  let t_safe := (24 <=? temp_c) && (temp_c <=? 28) in
  let t_mod := ((22 <=? temp_c) && (temp_c <? 24)) || ((28 <? temp_c) && (temp_c <=? 30)) in
  let s_safe := (30 <=? sal_psu) && (sal_psu <=? 35) in
  let s_mod := ((28 <=? sal_psu) && (sal_psu <? 30)) || ((35 <? sal_psu) && (sal_psu <=? 37)) in
  let do_safe := (do_mgL >=? 6) in
  let do_high := (do_mgL <? 4) in
  let nh3_safe := (nh3_mgL <=? 0.02) in
  let nh3_high := (nh3_mgL >? 0.05) in
  let d := PyDict.setitem d "T_safe_24_28" t_safe in
  let d := PyDict.setitem d "T_moderate_22_24_or_28_30" t_mod in
  let d := PyDict.setitem d "S_safe_30_35" s_safe in
  let d := PyDict.setitem d "S_moderate_28_30_or_35_37" s_mod in
  let d := PyDict.setitem d "DO_safe_ge6" do_safe in
  let d := PyDict.setitem d "DO_high_lt4" do_high in
  let d := PyDict.setitem d "NH3_safe_le_0_02" nh3_safe in
  let d := PyDict.setitem d "NH3_high_gt_0_05" nh3_high in
  let any_high :=
    (negb t_safe && negb t_mod) || (negb s_safe && negb s_mod) || do_high
    || (negb nh3_safe && nh3_high) in
  let any_mod :=
    negb any_high
    && (t_mod || s_mod || (negb do_safe && negb do_high)
        || (negb nh3_safe && negb nh3_high)) in
  let d := PyDict.setitem d "AGG_has_high" any_high in
  let d := PyDict.setitem d "AGG_has_moderate" any_mod in
  d.

(** The keyword arguments [dict(temp_c=..., sal_psu=..., do_mgL=...,
    nh3_mgL=...)] of a test case. *)
Record Inputs : Type := mkInputs {
  temp_c : float; sal_psu : float; do_mgL : float; nh3_mgL : float
}.

Definition TESTS : list (string * Inputs * string) :=
  [ ("ALL_SAFE",  mkInputs 26.0 32.0 7.0 0.005, "low");
    ("TEMP_MOD",  mkInputs 22.5 32.0 7.0 0.005, "medium");
    ("TEMP_HIGH", mkInputs 20.0 32.0 7.0 0.005, "high");
    ("SAL_MOD",   mkInputs 26.0 29.0 7.0 0.005, "medium");
    ("SAL_HIGH",  mkInputs 26.0 27.0 7.0 0.005, "high");
    ("DO_MOD",    mkInputs 26.0 32.0 5.0 0.005, "medium");
    ("DO_HIGH",   mkInputs 26.0 32.0 3.0 0.005, "high");
    ("NH3_MOD",   mkInputs 26.0 32.0 7.0 0.03,  "medium");
    ("NH3_HIGH",  mkInputs 26.0 32.0 7.0 0.06,  "high") ].

Definition ERROR_TESTS : list (string * Inputs) :=
  [ ("VAL_temp_le0", mkInputs 0.0 32.0 7.0 0.0);
    ("VAL_sal_le0",  mkInputs 26.0 0.0 7.0 0.0);
    ("VAL_do_le0",   mkInputs 26.0 32.0 0.0 0.0);
    ("VAL_nh3_lt0",  mkInputs 26.0 32.0 7.0 (-0.001)) ].

(** The two functions called with the keyword arguments of [inp]. *)
Definition classify_kw (inp : Inputs) : res RiskResult :=
  classify_marine_health (temp_c inp) (sal_psu inp) (do_mgL inp) (nh3_mgL inp).
Definition eval_kw (inp : Inputs) : PyDict.dict bool :=
  eval_decisions (temp_c inp) (sal_psu inp) (do_mgL inp) (nh3_mgL inp).

(** *** main *)

Definition coverage : Type := PyDict.dict (set bool).

(** [for k, v in dec.items(): cov[k].add(bool(v))] *)
Fixpoint record_decisions (cov : coverage) (items : list (string * bool))
  : res coverage :=
  match items with
  | [] => Ret cov
  | (k, v) :: items' =>
      match PyDict.getitem cov k with
      | None => Raise (KeyError k)
      | Some tf => record_decisions (PyDict.setitem cov k (set_add bool_dec v tf)) items'
      end
  end.

(** The first loop; a [ValueError] of the classifier is not caught here. *)
Fixpoint run_tests (tests : list (string * Inputs * string))
  (cov : coverage) (passed : nat) : res (coverage * nat) :=
  match tests with
  | [] => Ret (cov, passed)
  | (name, inp, expected) :: tests' =>
      out <- classify_kw inp ;;
      let ok := String.eqb (risk out) expected in
      let passed := (passed + (if ok then 1 else 0))%nat in
      cov <- record_decisions cov (PyDict.items (eval_kw inp)) ;;
      run_tests tests' cov passed
  end.

(** The second loop: [try ... except ValueError]. *)
Fixpoint run_error_tests (tests : list (string * Inputs))
  (cov : coverage) (passed : nat) : res (coverage * nat) :=
  match tests with
  | [] => Ret (cov, passed)
  | (name, inp) :: tests' =>
      ok <- match classify_kw inp with
            | Ret _ => Ret false
            | Raise (ValueError _) => Ret true
            | Raise e => Raise e
            end ;;
      let passed := (passed + (if ok then 1 else 0))%nat in
      cov <- record_decisions cov (PyDict.items (eval_kw inp)) ;;
      run_error_tests tests' cov passed
  end.

(** [b in cov[n]] *)
Definition seen (cov : coverage) (n : string) (b : bool) : res bool :=
  match PyDict.getitem cov n with
  | None => Raise (KeyError n)
  | Some tf => Ret (set_mem bool_dec b tf)
  end.

(** What [main] computes and prints after the per-case lines: the summary
    counts, the coverage table and the final [RESULT] line. *)
Record Report : Type := mkReport {
  passed : nat;
  total : nat;
  table : list (string * bool * bool);
  missing : list string;
  verdict : string
}.

Fixpoint coverage_table (cov : coverage) (names : list string)
  : res (list (string * bool * bool)) :=
  match names with
  | [] => Ret []
  | n :: names' =>
      t <- seen cov n true ;;
      f <- seen cov n false ;;
      rows <- coverage_table cov names' ;;
      Ret ((n, t, f) :: rows)
  end.

(** [[n for n in DECISIONS if True in cov[n] and False in cov[n]]] *)
Fixpoint both_seen (cov : coverage) (names : list string) : res (list string) :=
  match names with
  | [] => Ret []
  | n :: names' =>
      t <- seen cov n true ;;
      f <- (if t then seen cov n false else Ret false) ;;
      rest <- both_seen cov names' ;;
      Ret (if t && f then n :: rest else rest)
  end.

Definition main : res Report :=
  let cov := fold_left (fun d name => PyDict.setitem d name (empty_set bool))
               DECISIONS PyDict.empty in
  let passed := 0%nat in
  '(cov, passed) <- run_tests TESTS cov passed ;;
  '(cov, passed) <- run_error_tests ERROR_TESTS cov passed ;;
  let total := (List.length TESTS + List.length ERROR_TESTS)%nat in
  table <- coverage_table cov DECISIONS ;;
  both <- both_seen cov DECISIONS ;;
  let missing := filter (fun n => negb (contains n both)) DECISIONS in
  let verdict :=
    match missing with
    | [] => "[RESULT] C2 achieved for all tracked decisions."
    | _ => ("[RESULT] C2 NOT fully achieved for: " ++ String.concat ", " missing)%string
    end in
  Ret (mkReport passed total table missing verdict).

End C2.

(* ================================================================== *)
(** ** Vocabulary of the specification *)

Module Spec.
Local Open Scope pyfloat_scope.

(** A reading the data model admits: all four finite, temperature,
    salinity and dissolved oxygen strictly positive, ammonia non-negative. *)
Definition valid_input (temp_c sal_psu do_mgL nh3_mgL : float) : Prop :=
  finite temp_c /\ finite sal_psu /\ finite do_mgL /\ finite nh3_mgL /\
  0 < temp_c /\ 0 < sal_psu /\ 0 < do_mgL /\ 0 <= nh3_mgL.

(** What the validation rejects: a NaN or an infinity, or a reading out of
    its physical range. *)
Definition non_finite (x : float) : Prop := isnan x = true \/ isinf x = true.

Definition invalid_input (temp_c sal_psu do_mgL nh3_mgL : float) : Prop :=
  non_finite temp_c \/ non_finite sal_psu \/ non_finite do_mgL \/ non_finite nh3_mgL \/
  temp_c <= 0 \/ sal_psu <= 0 \/ do_mgL <= 0 \/ nh3_mgL < 0.

(** The threshold table, band by band.  "Otherwise" is what is neither
    safe nor moderate. *)
Definition temp_safe (t : float) : Prop := 24 <= t /\ t <= 28.
Definition temp_moderate (t : float) : Prop :=
  (22 <= t /\ t < 24) \/ (28 < t /\ t <= 30).
Definition temp_high (t : float) : Prop := ~ temp_safe t /\ ~ temp_moderate t.

Definition sal_safe (s : float) : Prop := 30 <= s /\ s <= 35.
Definition sal_moderate (s : float) : Prop :=
  (28 <= s /\ s < 30) \/ (35 < s /\ s <= 37).
Definition sal_high (s : float) : Prop := ~ sal_safe s /\ ~ sal_moderate s.

Definition do_safe (o : float) : Prop := 6 <= o.
Definition do_moderate (o : float) : Prop := 4 <= o /\ o < 6.
Definition do_high (o : float) : Prop := o < 4.

Definition nh3_safe (a : float) : Prop := a <= 0.02.
Definition nh3_moderate (a : float) : Prop := 0.02 < a /\ a <= 0.05.
Definition nh3_high (a : float) : Prop := 0.05 < a.

(** [c] returns a result whose risk is [x]. *)
Definition risk_is (c : res RiskResult) (x : string) : Prop :=
  exists r, c = Ret r /\ risk r = x.

(** The decision [k] is recorded in [d], and it is true exactly when [P]. *)
Definition decides (d : PyDict.dict bool) (k : string) (P : Prop) : Prop :=
  exists b, PyDict.getitem d k = Some b /\ (b = true <-> P).

(** The fixed enumeration order of the factor names. *)
Definition factor_names : list string :=
  ["temp"; "salinity"; "dissolved_oxygen"; "ammonia"].

(** Refinement target of the evaluator: "high" when [AGG_has_high] is
    true, else "medium" when [AGG_has_moderate] is true, else "low". *)
Definition risk_of_decisions (d : PyDict.dict bool) : option string :=
  match PyDict.getitem d "AGG_has_high", PyDict.getitem d "AGG_has_moderate" with
  | Some h, Some m => Some (if h then "high" else if m then "medium" else "low")
  | _, _ => None
  end.

(** [x] is the double nearest to [num / den]: it is within half a unit
    in the last place, [2 |m * den - num * 2^k| <= den] for [x = m / 2^k]. *)
Definition nearest (x : float) (num den : Z) : Prop :=
  match x with
  | S754_finite false m (Zneg k) =>
      is_double x /\
      (2 * Z.abs (Z.pos m * den - num * 2 ^ Z.pos k) <= den)%Z
  | _ => False
  end.

(** The full literal test corpus: the inputs of [TESTS], then those of
    [ERROR_TESTS]. *)
Definition corpus : list C2.Inputs :=
  map (fun c => snd (fst c)) C2.TESTS ++ map snd C2.ERROR_TESTS.

(** Some input of the corpus gives the decision [k] the value [b]. *)
Definition observed (k : string) (b : bool) : bool :=
  existsb (fun inp =>
             match PyDict.getitem (C2.eval_kw inp) k with
             | Some v => Bool.eqb v b
             | None => false
             end) corpus.

(** [l] keeps some of the entries of [names], in the order of [names]. *)
Inductive selection : list string -> list string -> Prop :=
| sel_nil : selection [] []
| sel_keep n l names : selection l names -> selection (n :: l) (n :: names)
| sel_skip n l names : selection l names -> selection l (n :: names).

End Spec.
Import Spec.

(* ================================================================== *)
(** ** marine_health_testing.py: the test tables, the CSV writers and the
    unit tests *)

Module Harness.
Local Open Scope pyfloat_scope.

(** A row of a test table, the dict with the keys [Case], [Temp_C],
    [Sal_PSU], [DO_mgL], [NH3_mgL] and [Expected_Risk]. *)
Record Row : Type := mkRow {
  Case : string;
  Temp_C : float;
  Sal_PSU : float;
  DO_mgL : float;
  NH3_mgL : float;
  Expected_Risk : string
}.

(** [rows.append({...})] *)
Definition add_case (rows : list Row) (label : string) (t s o a : float)
  (expected_risk : string) : list Row :=
  rows ++ [mkRow label t s o a expected_risk].

Definition decision_table_rows : list Row :=
  let rows := [] in
  let rows := add_case rows "ALL_SAFE" 26.0 32.0 7.0 0.005 "low" in
  let rows := add_case rows "TEMP_MOD" 22.5 32.0 7.0 0.005 "medium" in
  let rows := add_case rows "SAL_MOD" 26.0 29.0 7.0 0.005 "medium" in
  let rows := add_case rows "DO_MOD" 26.0 32.0 5.0 0.005 "medium" in
  let rows := add_case rows "NH3_MOD" 26.0 32.0 7.0 0.03 "medium" in
  let rows := add_case rows "TEMP_HIGH" 20.0 32.0 7.0 0.005 "high" in
  let rows := add_case rows "SAL_HIGH" 26.0 27.0 7.0 0.005 "high" in
  let rows := add_case rows "DO_HIGH" 26.0 32.0 3.0 0.005 "high" in
  let rows := add_case rows "NH3_HIGH" 26.0 32.0 7.0 0.06 "high" in
  let rows := add_case rows "HYPOXIA_EMERGENCY" 26.0 32.0 1.5 0.0 "high" in
  let rows := add_case rows "MIXED_HIGH_DOM" 23.0 29.5 3.5 0.01 "high" in
  let rows := add_case rows "MULTI_MODERATES" 23.5 36.0 5.5 0.01 "medium" in
  rows.

Definition boundary_cases_rows : list Row :=
  let rows := [] in
  let rows := add_case rows "TEMP_SAFE_LO" 24.0 32 7 0.0 "low" in
  let rows := add_case rows "TEMP_BELOW_SAFE" 23.99 32 7 0.0 "medium" in
  let rows := add_case rows "TEMP_SAFE_HI" 28.0 32 7 0.0 "low" in
  let rows := add_case rows "TEMP_ABOVE_SAFE" 28.01 32 7 0.0 "medium" in
  let rows := add_case rows "TEMP_LOW_HIGH" 21.9 32 7 0.0 "high" in
  let rows := add_case rows "TEMP_HIGH_HIGH" 30.1 32 7 0.0 "high" in
  let rows := add_case rows "SAL_SAFE_LO" 26 30.0 7 0.0 "low" in
  let rows := add_case rows "SAL_BELOW_SAFE" 26 29.99 7 0.0 "medium" in
  let rows := add_case rows "SAL_SAFE_HI" 26 35.0 7 0.0 "low" in
  let rows := add_case rows "SAL_ABOVE_SAFE" 26 35.01 7 0.0 "medium" in
  let rows := add_case rows "SAL_LOW_HIGH" 26 27.9 7 0.0 "high" in
  let rows := add_case rows "SAL_HIGH_HIGH" 26 37.1 7 0.0 "high" in
  let rows := add_case rows "DO_SAFE" 26 32 6.0 0.0 "low" in
  let rows := add_case rows "DO_MOD_BELOW_SAFE" 26 32 5.99 0.0 "medium" in
  let rows := add_case rows "DO_MOD_EDGE" 26 32 4.0 0.0 "medium" in
  let rows := add_case rows "DO_HIGH" 26 32 3.99 0.0 "high" in
  let rows := add_case rows "DO_EMERGENCY" 26 32 1.99 0.0 "high" in
  let rows := add_case rows "NH3_SAFE" 26 32 7 0.02 "low" in
  let rows := add_case rows "NH3_MOD_BELOW_HIGH" 26 32 7 0.02001 "medium" in
  let rows := add_case rows "NH3_MOD_EDGE" 26 32 7 0.05 "medium" in
  let rows := add_case rows "NH3_HIGH" 26 32 7 0.05001 "high" in
  let rows := add_case rows "AGGR_HIGH_DOM" 23.0 29.0 3.9 0.04 "high" in
  let rows := add_case rows "AGGR_ANY_MOD" 23.0 32.0 7.0 0.0 "medium" in
  let rows := add_case rows "AGGR_ALL_SAFE" 26.0 32.0 7.0 0.0 "low" in
  rows.

(** What the CSV writer is handed: the header, then one record per row.
    [Inputs] is the dict that [json.dumps] turns into the cell's text; the
    text itself and the CSV quoting are not modelled. *)
Inductive csv_record : Type :=
| header (fieldnames : list string)
| record (ID : nat) (case : string) (Inputs : PyDict.dict float)
         (Expected_Output Actual_Output Result : string).

Definition fieldnames : list string :=
  ["ID"; "Case"; "Inputs"; "Expected Output"; "Actual Output"; "Result"].

(** The dict [inputs] built from a row. *)
Definition inputs_of (r : Row) : PyDict.dict float :=
  PyDict.setitem (PyDict.setitem (PyDict.setitem (PyDict.setitem
    PyDict.empty
    "temp_c" (Temp_C r))
    "sal_psu" (Sal_PSU r))
    "do_mgL" (DO_mgL r))
    "nh3_mgL" (NH3_mgL r).

(** The loop [for i, r in enumerate(rows, start=1)] of both writers, on the
    records written so far.  The classifier is called with the entries of
    [inputs] as keyword arguments, that is with the four readings of the row.
    An exception of the classifier leaves the file with what was written
    before it. *)
Fixpoint write_rows (i : nat) (rows : list Row) (file : list csv_record)
  : list csv_record * res unit :=
  match rows with
  | [] => (file, Ret tt)
  | r :: rows' =>
      let inputs := inputs_of r in
      let expected := Expected_Risk r in
      match Testing.classify_marine_health
              (Temp_C r) (Sal_PSU r) (DO_mgL r) (NH3_mgL r) with
      | Raise e => (file, Raise e)
      | Ret out =>
          let actual := risk out in
          let result := if String.eqb expected actual then "Pass" else "Fail" in
          write_rows (S i) rows'
            (file ++ [record i (Case r) inputs expected actual result])
      end
  end.

(** Both writers return the records written to [path] and, when nothing was
    raised, [path]. *)
Definition write_decision_table_csv (path : string)
  : list csv_record * res string :=
  let rows := decision_table_rows in
  let file := [header fieldnames] in
  let '(file, r) := write_rows 1 rows file in
  (file, r ;;; Ret path).

Definition write_boundary_csv (path : string)
  : list csv_record * res string :=
  let rows := boundary_cases_rows in
  let file := [header fieldnames] in
  let '(file, r) := write_rows 1 rows file in
  (file, r ;;; Ret path).

(** *** Unit tests

    A test method succeeds, fails on an [AssertionError], or ends in an error
    on any other exception. *)
Inductive outcome : Type :=
| success
| failure
| error (e : exn).

(** One assertion after another: the first that does not succeed ends the
    method. *)
Definition and_then (o : outcome) (k : outcome) : outcome :=
  match o with
  | success => k
  | _ => o
  end.

(** [self.assertEqual(c["risk"], x)] *)
Definition assertRisk (c : res RiskResult) (x : string) : outcome :=
  match c with
  | Raise e => error e
  | Ret out => if String.eqb (risk out) x then success else failure
  end.

(** [with self.assertRaises(ValueError): c] *)
Definition assertRaisesValueError (c : res RiskResult) : outcome :=
  match c with
  | Raise (ValueError _) => success
  | Raise e => error e
  | Ret _ => failure
  end.

(** The loop of [test_decision_rows], on any table. *)
Fixpoint test_rows (rows : list Row) : outcome :=
  match rows with
  | [] => success
  | r :: rows' =>
      and_then
        (assertRisk (Testing.classify_marine_health
                       (Temp_C r) (Sal_PSU r) (DO_mgL r) (NH3_mgL r))
                    (Expected_Risk r))
        (test_rows rows')
  end.

Definition test_decision_rows : outcome := test_rows decision_table_rows.

Definition test_temp_boundaries : outcome :=
  and_then (assertRisk (Testing.classify_marine_health 24.0 32 7 0.0) "low")
 (and_then (assertRisk (Testing.classify_marine_health 23.99 32 7 0.0) "medium")
 (and_then (assertRisk (Testing.classify_marine_health 28.0 32 7 0.0) "low")
 (and_then (assertRisk (Testing.classify_marine_health 28.01 32 7 0.0) "medium")
 (and_then (assertRisk (Testing.classify_marine_health 21.9 32 7 0.0) "high")
           (assertRisk (Testing.classify_marine_health 30.1 32 7 0.0) "high"))))).

Definition test_sal_boundaries : outcome :=
  and_then (assertRisk (Testing.classify_marine_health 26 30.0 7 0.0) "low")
 (and_then (assertRisk (Testing.classify_marine_health 26 29.99 7 0.0) "medium")
 (and_then (assertRisk (Testing.classify_marine_health 26 35.0 7 0.0) "low")
 (and_then (assertRisk (Testing.classify_marine_health 26 35.01 7 0.0) "medium")
 (and_then (assertRisk (Testing.classify_marine_health 26 27.9 7 0.0) "high")
           (assertRisk (Testing.classify_marine_health 26 37.1 7 0.0) "high"))))).

Definition test_do_boundaries : outcome :=
  and_then (assertRisk (Testing.classify_marine_health 26 32 6.0 0.0) "low")
 (and_then (assertRisk (Testing.classify_marine_health 26 32 5.99 0.0) "medium")
 (and_then (assertRisk (Testing.classify_marine_health 26 32 4.0 0.0) "medium")
 (and_then (assertRisk (Testing.classify_marine_health 26 32 3.99 0.0) "high")
           (assertRisk (Testing.classify_marine_health 26 32 1.99 0.0) "high")))).

Definition test_nh3_boundaries : outcome :=
  and_then (assertRisk (Testing.classify_marine_health 26 32 7 0.02) "low")
 (and_then (assertRisk (Testing.classify_marine_health 26 32 7 0.02001) "medium")
 (and_then (assertRisk (Testing.classify_marine_health 26 32 7 0.05) "medium")
           (assertRisk (Testing.classify_marine_health 26 32 7 0.05001) "high"))).

Definition test_aggregation_rules : outcome :=
  and_then (assertRisk (Testing.classify_marine_health 23.0 29.0 3.9 0.04) "high")
 (and_then (assertRisk (Testing.classify_marine_health 23.0 32.0 7.0 0.0) "medium")
           (assertRisk (Testing.classify_marine_health 26.0 32.0 7.0 0.0) "low")).

Definition test_validation : outcome :=
  and_then (assertRaisesValueError (Testing.classify_marine_health (-1) 32 7 0.0))
 (and_then (assertRaisesValueError (Testing.classify_marine_health 26 (-1) 7 0.0))
 (and_then (assertRaisesValueError (Testing.classify_marine_health 26 32 0 0.0))
 (and_then (assertRaisesValueError (Testing.classify_marine_health 26 32 7 (-0.001)))
           (assertRaisesValueError (Testing.classify_marine_health nan 32 7 0.0))))).

(** What [main] prints in its summary line, after writing the two files. *)
Record Summary : Type := mkSummary {
  decision_table_file : list csv_record;
  boundary_file : list csv_record;
  testsRun : nat;
  failures : nat;
  errors : nat;
  wasSuccessful : bool
}.

Definition is_failure (o : outcome) : bool :=
  match o with failure => true | _ => false end.
Definition is_error (o : outcome) : bool :=
  match o with error _ => true | _ => false end.

Definition main : res Summary :=
  let '(file1, r1) := write_decision_table_csv "decision_table_marine_health.csv" in
  r1 ;;;
  let '(file2, r2) := write_boundary_csv "boundary_tests_marine_health.csv" in
  r2 ;;;
  let alltests :=
    [ test_decision_rows;
      test_aggregation_rules; test_do_boundaries; test_nh3_boundaries;
      test_sal_boundaries; test_temp_boundaries; test_validation ] in
  let failures := List.length (filter is_failure alltests) in
  let errors := List.length (filter is_error alltests) in
  Ret (mkSummary file1 file2 (List.length alltests) failures errors
         (Nat.eqb failures 0 && Nat.eqb errors 0)).

End Harness.

(* ================================================================== *)
(** ** c2_branch_tests_marine_health.py: [main] on any two tables *)

Module Runs.

(** [C2.main] with its two global tables and the decision list as
    arguments. *)
Definition main_on (TESTS : list (string * C2.Inputs * string))
  (ERROR_TESTS : list (string * C2.Inputs)) : res C2.Report :=
  let cov := fold_left (fun d name => PyDict.setitem d name (empty_set bool))
               C2.DECISIONS PyDict.empty in
  let passed := 0%nat in
  '(cov, passed) <- C2.run_tests TESTS cov passed ;;
  '(cov, passed) <- C2.run_error_tests ERROR_TESTS cov passed ;;
  let total := (List.length TESTS + List.length ERROR_TESTS)%nat in
  table <- C2.coverage_table cov C2.DECISIONS ;;
  both <- C2.both_seen cov C2.DECISIONS ;;
  let missing := filter (fun n => negb (contains n both)) C2.DECISIONS in
  let verdict :=
    match missing with
    | [] => "[RESULT] C2 achieved for all tracked decisions."
    | _ => ("[RESULT] C2 NOT fully achieved for: " ++ String.concat ", " missing)%string
    end in
  Ret (C2.mkReport passed total table missing verdict).

End Runs.

(* ================================================================== *)
(** ** Vocabulary for the harness and the runs *)

Module Terms.

(** The coverage [main] starts from: every decision with an empty set. *)
Definition initial_coverage : C2.coverage :=
  fold_left (fun d name => PyDict.setitem d name (empty_set bool))
    C2.DECISIONS PyDict.empty.

(** [b in cov[k]] as a proposition. *)
Definition cov_has (cov : C2.coverage) (k : string) (b : bool) : Prop :=
  exists tf, PyDict.getitem cov k = Some tf /\ In b tf.

(** Some input of [inputs] gives the decision [k] the value [b]. *)
Definition seen_on (inputs : list C2.Inputs) (k : string) (b : bool) : Prop :=
  exists inp, In inp inputs /\ PyDict.getitem (C2.eval_kw inp) k = Some b.

Definition valid_inputs (inp : C2.Inputs) : Prop :=
  valid_input (C2.temp_c inp) (C2.sal_psu inp) (C2.do_mgL inp) (C2.nh3_mgL inp).

(** How bad a risk or a bucket is. *)
Definition severity (x : string) : nat :=
  if String.eqb x "high" then 2
  else if String.eqb x "medium" then 1
  else if String.eqb x "moderate" then 1
  else 0.

(** The inputs of the two kinds of test entries. *)
Definition test_inputs (tests : list (string * C2.Inputs * string))
  : list C2.Inputs := map (fun c => snd (fst c)) tests.
Definition error_inputs (tests : list (string * C2.Inputs))
  : list C2.Inputs := map snd tests.

(** A test entry meets its expectation: the classifier returns the expected
    risk, or, for an error entry, raises [ValueError]. *)
Definition test_ok (c : string * C2.Inputs * string) : bool :=
  match C2.classify_kw (snd (fst c)) with
  | Ret out => String.eqb (risk out) (snd c)
  | Raise _ => false
  end.
Definition error_test_ok (c : string * C2.Inputs) : bool :=
  match C2.classify_kw (snd c) with
  | Raise (ValueError _) => true
  | _ => false
  end.

(** [b in cov[n]] as a boolean, false without an entry. *)
Definition seen_bool (cov : C2.coverage) (n : string) (b : bool) : bool :=
  match PyDict.getitem cov n with
  | Some tf => set_mem bool_dec b tf
  | None => false
  end.

(** A row whose four readings are a valid input. *)
Definition valid_row (r : Harness.Row) : Prop :=
  valid_input (Harness.Temp_C r) (Harness.Sal_PSU r)
              (Harness.DO_mgL r) (Harness.NH3_mgL r).

(** The classifier on the readings of a row. *)
Definition classify_row (r : Harness.Row) : res RiskResult :=
  Testing.classify_marine_health (Harness.Temp_C r) (Harness.Sal_PSU r)
    (Harness.DO_mgL r) (Harness.NH3_mgL r).

(** The record a writer appends for row [r], numbered [i], when the
    classifier returned [out]. *)
Definition record_of (i : nat) (r : Harness.Row) (out : RiskResult)
  : Harness.csv_record :=
  Harness.record i (Harness.Case r) (Harness.inputs_of r)
    (Harness.Expected_Risk r) (risk out)
    (if String.eqb (Harness.Expected_Risk r) (risk out) then "Pass" else "Fail").

(** The [Result] cell of a record. *)
Definition result_of (c : Harness.csv_record) : string :=
  match c with
  | Harness.header _ => ""
  | Harness.record _ _ _ _ _ result => result
  end.

(** The row meets its expectation. *)
Definition row_ok (r : Harness.Row) : Prop :=
  risk_is (classify_row r) (Harness.Expected_Risk r).

End Terms.
Import Terms.

(* ================================================================== *)
(** * Facts *)

Unset Implicit Arguments.

(** ** The order of floats *)

Section FloatOrder.
Local Open Scope Z_scope.

Ltac compare_cases :=
    repeat match goal with
    | |- context [PosDef.Pos.compare_cont Eq ?m ?n] =>
        change (PosDef.Pos.compare_cont Eq m n) with (Pos.compare m n);
        destruct (Pos.compare_spec m n)
    | |- context [Z.compare ?e ?f] => destruct (Z.compare_spec e f)
    end;
    cbn; split; intros; try discriminate; try reflexivity; try lia.

Lemma ltb_rank (x y : float) : SFltb x y = true <-> rank_lt x y.
  Proof.
    unfold rank_lt, SFltb, SFcompare.
    destruct x as [sx|sx| |sx mx ex], y as [sy|sy| |sy my ey];
      try destruct sx; try destruct sy; cbn; compare_cases.
  Qed.

Lemma leb_rank (x y : float) : SFleb x y = true <-> rank_le x y.
  Proof.
    unfold rank_le, SFleb, SFcompare.
    destruct x as [sx|sx| |sx mx ex], y as [sy|sy| |sy my ey];
      try destruct sx; try destruct sy; cbn; compare_cases.
  Qed.

Lemma ltb_false_rank (x y : float) : SFltb x y = false <-> ~ rank_lt x y.
  Proof. rewrite <- ltb_rank. destruct (SFltb x y); intuition congruence. Qed.

Lemma leb_false_rank (x y : float) : SFleb x y = false <-> ~ rank_le x y.
  Proof. rewrite <- leb_rank. destruct (SFleb x y); intuition congruence. Qed.

End FloatOrder.

(** ** Lexicographic keys *)

Section KeyOrder.
Local Open Scope Z_scope.
Implicit Types a b c : key.

Ltac key_arith :=
    intros;
    repeat match goal with a : key |- _ => destruct a as [[? ?] ?] end;
    unfold key_lt, key_le in *; lia.

Lemma key_lt_le_incl a b : key_lt a b -> key_le a b.
  Proof. key_arith. Qed.

Lemma key_le_trans a b c : key_le a b -> key_le b c -> key_le a c.
  Proof. key_arith. Qed.

Lemma key_lt_le_trans a b c : key_lt a b -> key_le b c -> key_lt a c.
  Proof. key_arith. Qed.

Lemma key_le_lt_trans a b c : key_le a b -> key_lt b c -> key_lt a c.
  Proof. key_arith. Qed.

Lemma key_le_or_lt a b : key_le a b \/ key_lt b a.
  Proof. key_arith. Qed.

Lemma key_lt_not_le a b : key_lt a b -> ~ key_le b a.
  Proof. key_arith. Qed.
End KeyOrder.

(** ** Order laws of the IEEE comparisons *)

Section FloatLaws.
Local Open Scope pyfloat_scope.
Implicit Types x y z : float.

Ltac by_rank :=
    unfold lt, le; intros;
    repeat match goal with
    | H : SFltb _ _ = true |- _ => apply ltb_rank in H
    | H : SFleb _ _ = true |- _ => apply leb_rank in H
    end;
    try apply ltb_rank; try apply leb_rank;
    unfold rank_lt, rank_le in *;
    repeat match goal with
    | |- context [rank ?x] => destruct (rank x)
    | H : context [rank ?x] |- _ => destruct (rank x)
    end;
    try contradiction.

Lemma lt_le_incl x y : x < y -> x <= y.
  Proof. by_rank. now apply key_lt_le_incl. Qed.

Lemma le_trans x y z : x <= y -> y <= z -> x <= z.
  Proof. by_rank. eapply key_le_trans; eassumption. Qed.

Lemma lt_le_trans x y z : x < y -> y <= z -> x < z.
  Proof. by_rank. eapply key_lt_le_trans; eassumption. Qed.

Lemma le_lt_trans x y z : x <= y -> y < z -> x < z.
  Proof. by_rank. eapply key_le_lt_trans; eassumption. Qed.

Lemma lt_trans x y z : x < y -> y < z -> x < z.
  Proof. intros H1 H2. eapply lt_le_trans; [eassumption | now apply lt_le_incl]. Qed.

  (** Without a NaN the order is total: [x <= y] fails exactly when [y < x]. *)
Lemma leb_negb_ltb x y :
    isnan x = false -> isnan y = false -> SFleb x y = negb (SFltb y x).
  Proof.
    intros Hx Hy.
    destruct (SFleb x y) eqn:Hle, (SFltb y x) eqn:Hlt; try reflexivity; exfalso.
    - apply leb_rank in Hle. apply ltb_rank in Hlt.
      unfold rank_le, rank_lt in *.
      destruct (rank x), (rank y); try contradiction.
      eapply key_lt_not_le; eassumption.
    - apply leb_false_rank in Hle. apply ltb_false_rank in Hlt.
      unfold rank_le, rank_lt in *.
      destruct x, y; try discriminate; cbn [rank] in *;
        repeat match goal with s : bool |- _ => destruct s end;
        match goal with
        | H : ~ key_le ?a ?b |- _ => destruct (key_le_or_lt a b); tauto
        end.
  Qed.

Lemma ltb_negb_leb x y :
    isnan x = false -> isnan y = false -> SFltb x y = negb (SFleb y x).
  Proof.
    intros Hx Hy. rewrite (leb_negb_ltb y x) by assumption.
    now rewrite negb_involutive.
  Qed.

  (** Every comparison with a NaN is false. *)
Lemma cmp_nan x :
    SFltb S754_nan x = false /\ SFltb x S754_nan = false /\
    SFleb S754_nan x = false /\ SFleb x S754_nan = false.
  Proof. destruct x; repeat split; reflexivity. Qed.

Lemma isnan_true x : isnan x = true -> x = S754_nan.
  Proof. destruct x; try discriminate; reflexivity. Qed.

  (** A float between two finite floats is finite. *)
Lemma le_finite x y z :
    finite x -> finite z -> x <= y -> y <= z -> finite y.
  Proof.
    unfold finite, lt, le. intros [_ Hx] [_ Hz] H1 H2.
    destruct y as [s|s| |s m e]; cbn; try (split; reflexivity).
    - destruct s.
      + destruct x as [ | [|] | | [|] ]; discriminate.
      + destruct z as [ | [|] | | [|] ]; discriminate.
    - destruct x; discriminate.
  Qed.

  (** The floats above zero, and the floats at or above zero. *)
Lemma positive_finite x :
    finite x -> 0 < x -> exists m e, x = S754_finite false m e.
  Proof.
    unfold finite, lt. intros [Hn Hi] H.
    destruct x as [s|s| |[|] m e]; try discriminate; eauto.
  Qed.

End FloatLaws.

(** ** The zones of each reading

    For each reading, the comparisons that the program and the threshold
    table apply to it, and the truth values they can take together: one row
    for a NaN, then the rows from the lowest zone to the highest. *)

Ltac nan_case t H :=
  apply isnan_true in H; subst t; vm_compute; tauto.

Ltac upward t :=
  repeat match goal with
  | |- context [SFltb t ?c] => rewrite (ltb_negb_leb t c) by (assumption || reflexivity)
  | |- context [SFleb t ?c] => rewrite (leb_negb_ltb t c) by (assumption || reflexivity)
  end.

Ltac prune :=
  repeat match goal with
  | H : true = true -> false = true |- _ => exfalso; discriminate (H eq_refl)
  | H : true = true -> _ |- _ => clear H
  | H : false = true -> _ |- _ => clear H
  end.

Ltac pick := cbn [negb]; repeat (first [left; reflexivity | right]); try reflexivity.

Section Zones.
Local Open Scope pyfloat_scope.

Lemma temp_zones (t : float) :
  In (24 <=? t, t <=? 28, 22 <=? t, t <? 24, 28 <? t, t <=? 30,
      t <=? 0, 0 <? t, t <? 22, 30 <? t)
     [ (false, false, false, false, false, false, false, false, false, false);
       (false, true, false, true, false, true, true, false, true, false);
       (false, true, false, true, false, true, false, true, true, false);
       (false, true, true, true, false, true, false, true, false, false);
       (true, true, true, false, false, true, false, true, false, false);
       (true, false, true, false, true, true, false, true, false, false);
       (true, false, true, false, true, false, false, true, false, true) ].
Proof.
  unfold ltb, leb.
  destruct (isnan t) eqn:Hn; [nan_case t Hn|].
  upward t.
  assert (C1 : SFltb 30 t = true -> SFltb 28 t = true)
    by (apply (le_lt_trans 28 30 t); reflexivity).
  assert (C2 : SFltb 28 t = true -> SFleb 24 t = true)
    by (intro; apply (le_trans 24 28 t); [reflexivity | now apply lt_le_incl]).
  assert (C3 : SFleb 24 t = true -> SFleb 22 t = true)
    by (apply (le_trans 22 24 t); reflexivity).
  assert (C4 : SFleb 22 t = true -> SFltb 0 t = true)
    by (apply (lt_le_trans 0 22 t); reflexivity).
  destruct (SFltb 30 t), (SFltb 28 t), (SFleb 24 t), (SFleb 22 t), (SFltb 0 t);
    prune; pick.
Qed.

Lemma sal_zones (s : float) :
  In (30 <=? s, s <=? 35, 28 <=? s, s <? 30, 35 <? s, s <=? 37,
      s <=? 0, 0 <? s, s <? 28, 37 <? s)
     [ (false, false, false, false, false, false, false, false, false, false);
       (false, true, false, true, false, true, true, false, true, false);
       (false, true, false, true, false, true, false, true, true, false);
       (false, true, true, true, false, true, false, true, false, false);
       (true, true, true, false, false, true, false, true, false, false);
       (true, false, true, false, true, true, false, true, false, false);
       (true, false, true, false, true, false, false, true, false, true) ].
Proof.
  unfold ltb, leb.
  destruct (isnan s) eqn:Hn; [nan_case s Hn|].
  upward s.
  assert (C1 : SFltb 37 s = true -> SFltb 35 s = true)
    by (apply (le_lt_trans 35 37 s); reflexivity).
  assert (C2 : SFltb 35 s = true -> SFleb 30 s = true)
    by (intro; apply (le_trans 30 35 s); [reflexivity | now apply lt_le_incl]).
  assert (C3 : SFleb 30 s = true -> SFleb 28 s = true)
    by (apply (le_trans 28 30 s); reflexivity).
  assert (C4 : SFleb 28 s = true -> SFltb 0 s = true)
    by (apply (lt_le_trans 0 28 s); reflexivity).
  destruct (SFltb 37 s), (SFltb 35 s), (SFleb 30 s), (SFleb 28 s), (SFltb 0 s);
    prune; pick.
Qed.

Lemma do_zones (o : float) :
  In (o >=? 6, o <? 4, o <=? 0, 0 <? o, 4 <=? o, o <? 6)
     [ (false, false, false, false, false, false);
       (false, true, true, false, false, true);
       (false, true, false, true, false, true);
       (false, false, false, true, true, true);
       (true, false, false, true, true, false) ].
Proof.
  unfold geb, ltb, leb.
  destruct (isnan o) eqn:Hn; [nan_case o Hn|].
  upward o.
  assert (C1 : SFleb 6 o = true -> SFleb 4 o = true)
    by (apply (le_trans 4 6 o); reflexivity).
  assert (C2 : SFleb 4 o = true -> SFltb 0 o = true)
    by (apply (lt_le_trans 0 4 o); reflexivity).
  destruct (SFleb 6 o), (SFleb 4 o), (SFltb 0 o); prune; pick.
Qed.

Lemma nh3_zones (a : float) :
  In (a <=? 0.02, a >? 0.05, a <? 0, a >=? 0, 0.02 <? a, a <=? 0.05)
     [ (false, false, false, false, false, false);
       (true, false, true, false, false, true);
       (true, false, false, true, false, true);
       (false, false, false, true, true, true);
       (false, true, false, true, true, false) ].
Proof.
  unfold gtb, geb, ltb, leb.
  destruct (isnan a) eqn:Hn; [nan_case a Hn|].
  upward a.
  assert (C1 : SFltb 0.05 a = true -> SFltb 0.02 a = true)
    by (apply (le_lt_trans 0.02 0.05 a); reflexivity).
  assert (C2 : SFltb 0.02 a = true -> SFleb 0 a = true)
    by (intro; apply (le_trans 0 0.02 a); [reflexivity | now apply lt_le_incl]).
  destruct (SFltb 0.05 a), (SFltb 0.02 a), (SFleb 0 a); prune; pick.
Qed.

End Zones.

(** Case analysis on the zone of a reading: every comparison on [t] in the
    goal and the hypotheses gets its truth value. *)
Ltac zones_of t lemma :=
  let E := fresh "E" in
  pose proof (lemma t) as E;
  unfold gtb, geb, ltb, leb in E; cbn [In] in E;
  repeat (destruct E as [E|E];
          [ inversion E; clear E;
            repeat match goal with
            | H : _ = SFltb _ _ |- _ => try rewrite <- H in *; clear H
            | H : _ = SFleb _ _ |- _ => try rewrite <- H in *; clear H
            end
          | ]);
  [ .. | contradiction ].

Ltac unfold_cmp :=
  unfold temp_high, sal_high in *;
  unfold temp_safe, temp_moderate, sal_safe, sal_moderate,
    do_safe, do_moderate, do_high, nh3_safe, nh3_moderate, nh3_high,
    lt, le, gtb, geb, ltb, leb in *.

Ltac decide_bools := intuition (try discriminate; try reflexivity; try congruence).

(** ** Validation *)

Section Validation.
Local Open Scope pyfloat_scope.

Lemma contains_In (x : string) (l : list string) : contains x l = true <-> In x l.
Proof.
  unfold contains. rewrite existsb_exists. split.
  - intros (y & Hy & E). apply String.eqb_eq in E. now subst.
  - intros H. exists x. split; [assumption | apply String.eqb_refl].
Qed.

Lemma finite_dec (x : float) : finite x \/ non_finite x.
Proof.
  unfold finite, non_finite.
  destruct (isnan x), (isinf x); intuition congruence.
Qed.

Lemma valid_not_invalid (t s o a : float) :
  valid_input t s o a <-> ~ invalid_input t s o a.
Proof.
  unfold valid_input, invalid_input, finite, non_finite. unfold_cmp.
  destruct (isnan t) eqn:Ht; [intuition congruence|].
  destruct (isnan s) eqn:Hs; [intuition congruence|].
  destruct (isnan o) eqn:Ho; [intuition congruence|].
  destruct (isnan a) eqn:Ha; [intuition congruence|].
  rewrite (leb_negb_ltb t 0), (leb_negb_ltb s 0), (leb_negb_ltb o 0),
    (ltb_negb_leb a 0) by (assumption || reflexivity).
  destruct (isinf t), (isinf s), (isinf o), (isinf a);
    try solve [intuition congruence].
  destruct (SFltb 0 t), (SFltb 0 s), (SFltb 0 o), (SFleb 0 a); cbn [negb];
    intuition congruence.
Qed.

Lemma valid_or_invalid (t s o a : float) :
  valid_input t s o a \/ invalid_input t s o a.
Proof.
  unfold valid_input, invalid_input, finite, non_finite. unfold_cmp.
  destruct (isnan t) eqn:Ht; [intuition congruence|].
  destruct (isnan s) eqn:Hs; [intuition congruence|].
  destruct (isnan o) eqn:Ho; [intuition congruence|].
  destruct (isnan a) eqn:Ha; [intuition congruence|].
  rewrite (leb_negb_ltb t 0), (leb_negb_ltb s 0), (leb_negb_ltb o 0),
    (ltb_negb_leb a 0) by (assumption || reflexivity).
  destruct (isinf t), (isinf s), (isinf o), (isinf a);
    try solve [intuition congruence].
  destruct (SFltb 0 t), (SFltb 0 s), (SFltb 0 o), (SFleb 0 a); cbn [negb];
    intuition congruence.
Qed.

(** On a valid input the classifier reaches the aggregation. *)
Lemma classify_valid (t s o a : float) :
  valid_input t s o a ->
  Testing.classify_marine_health t s o a =
  Ret (mkRiskResult
         (if contains "high" [Testing.bucket_temp t; Testing.bucket_sal s;
                              Testing.bucket_do o; Testing.bucket_nh3 a]
          then "high"
          else if contains "moderate" [Testing.bucket_temp t; Testing.bucket_sal s;
                                       Testing.bucket_do o; Testing.bucket_nh3 a]
          then "medium" else "low")
         (map fst (filter (fun kv => negb (String.eqb (snd kv) "safe"))
            [("temp", Testing.bucket_temp t); ("salinity", Testing.bucket_sal s);
             ("dissolved_oxygen", Testing.bucket_do o);
             ("ammonia", Testing.bucket_nh3 a)]))).
Proof.
  unfold valid_input, finite. unfold_cmp.
  intros ([Ht Ht'] & [Hs Hs'] & [Ho Ho'] & [Ha Ha'] & Pt & Ps & Po & Pa).
  unfold Testing.classify_marine_health, Testing.check_finite.
  rewrite Ht, Ht', Hs, Hs', Ho, Ho', Ha, Ha'. cbn [orb bind].
  unfold ltb, leb.
  rewrite (leb_negb_ltb t 0), (leb_negb_ltb s 0), (leb_negb_ltb o 0),
    (ltb_negb_leb a 0) by (assumption || reflexivity).
  rewrite Pt, Ps, Po, Pa. reflexivity.
Qed.

(** On an invalid input it raises [ValueError]. *)
Lemma classify_invalid (t s o a : float) :
  invalid_input t s o a ->
  exists msg, Testing.classify_marine_health t s o a = Raise (ValueError msg).
Proof.
  unfold invalid_input, non_finite. unfold_cmp.
  unfold Testing.classify_marine_health, Testing.check_finite.
  intros H.
  destruct (isnan t || isinf t) eqn:Ft; [eexists; reflexivity|].
  destruct (isnan s || isinf s) eqn:Fs; [eexists; reflexivity|].
  destruct (isnan o || isinf o) eqn:Fo; [eexists; reflexivity|].
  destruct (isnan a || isinf a) eqn:Fa; [eexists; reflexivity|].
  cbn [bind]. unfold ltb, leb.
  apply orb_false_iff in Ft, Fs, Fo, Fa.
  destruct H as [H|[H|[H|[H|[H|[H|[H|H]]]]]]];
    try solve [exfalso; intuition congruence];
    rewrite H; rewrite ?orb_true_r; cbn [orb]; eexists; reflexivity.
Qed.

(** The second copy is the same function. *)
Lemma copies_agree (t s o a : float) :
  C2.classify_marine_health t s o a = Testing.classify_marine_health t s o a.
Proof. reflexivity. Qed.

End Validation.

(** ** The threshold table (C1) *)

Section Buckets.
Local Open Scope pyfloat_scope.

Lemma temp_table (t : float) :
  finite t -> 0 < t ->
  (Testing.bucket_temp t = "safe" <-> temp_safe t) /\
  (Testing.bucket_temp t = "moderate" <-> temp_moderate t) /\
  (Testing.bucket_temp t = "high" <-> temp_high t) /\
  (temp_high t <-> t < 22 \/ 30 < t).
Proof.
  intros [Hn _] Hpos. unfold Testing.bucket_temp. unfold_cmp.
  zones_of t temp_zones; cbn [andb orb negb]; try discriminate.
  all: decide_bools.
Qed.

Lemma sal_table (s : float) :
  finite s -> 0 < s ->
  (Testing.bucket_sal s = "safe" <-> sal_safe s) /\
  (Testing.bucket_sal s = "moderate" <-> sal_moderate s) /\
  (Testing.bucket_sal s = "high" <-> sal_high s) /\
  (sal_high s <-> s < 28 \/ 37 < s).
Proof.
  intros [Hn _] Hpos. unfold Testing.bucket_sal. unfold_cmp.
  zones_of s sal_zones; cbn [andb orb negb]; try discriminate.
  all: decide_bools.
Qed.

Lemma do_table (o : float) :
  finite o -> 0 < o ->
  (Testing.bucket_do o = "safe" <-> do_safe o) /\
  (Testing.bucket_do o = "moderate" <-> do_moderate o) /\
  (Testing.bucket_do o = "high" <-> do_high o).
Proof.
  intros [Hn _] Hpos. unfold Testing.bucket_do. unfold_cmp.
  zones_of o do_zones; cbn [andb orb negb]; try discriminate.
  all: decide_bools.
Qed.

Lemma nh3_table (a : float) :
  finite a -> 0 <= a ->
  (Testing.bucket_nh3 a = "safe" <-> nh3_safe a) /\
  (Testing.bucket_nh3 a = "moderate" <-> nh3_moderate a) /\
  (Testing.bucket_nh3 a = "high" <-> nh3_high a).
Proof.
  intros [Hn _] Hpos. unfold Testing.bucket_nh3. unfold_cmp.
  zones_of a nh3_zones; cbn [andb orb negb]; try discriminate.
  all: decide_bools.
Qed.

(** C1.  On every valid input each reading's bucket follows the threshold
    table with its closed and half-open boundaries: temperature is safe on
    [24,28], moderate on [22,24) and (28,30], high otherwise (below 22 or
    above 30); salinity is safe on [30,35], moderate on [28,30) and (35,37],
    high otherwise (below 28 or above 37); dissolved oxygen is safe from 6
    up, moderate on [4,6), high below 4, and exactly 4.0 is moderate; ammonia
    is safe up to 0.02, moderate on (0.02,0.05], high above 0.05. *)
Theorem buckets_follow_table (t s o a : float) :
  valid_input t s o a ->
  ((Testing.bucket_temp t = "safe" <-> 24 <= t /\ t <= 28) /\
   (Testing.bucket_temp t = "moderate" <->
      (22 <= t /\ t < 24) \/ (28 < t /\ t <= 30)) /\
   (Testing.bucket_temp t = "high" <-> temp_high t) /\
   (temp_high t <-> t < 22 \/ 30 < t)) /\
  ((Testing.bucket_sal s = "safe" <-> 30 <= s /\ s <= 35) /\
   (Testing.bucket_sal s = "moderate" <->
      (28 <= s /\ s < 30) \/ (35 < s /\ s <= 37)) /\
   (Testing.bucket_sal s = "high" <-> sal_high s) /\
   (sal_high s <-> s < 28 \/ 37 < s)) /\
  ((Testing.bucket_do o = "safe" <-> 6 <= o) /\
   (Testing.bucket_do o = "moderate" <-> 4 <= o /\ o < 6) /\
   (Testing.bucket_do o = "high" <-> o < 4)) /\
  ((Testing.bucket_nh3 a = "safe" <-> a <= 0.02) /\
   (Testing.bucket_nh3 a = "moderate" <-> 0.02 < a /\ a <= 0.05) /\
   (Testing.bucket_nh3 a = "high" <-> 0.05 < a)) /\
  Testing.bucket_do 4.0 = "moderate".
Proof.
  intros (Ft & Fs & Fo & Fa & Pt & Ps & Po & Pa).
  split; [exact (temp_table t Ft Pt)|].
  split; [exact (sal_table s Fs Ps)|].
  split; [exact (do_table o Fo Po)|].
  split; [exact (nh3_table a Fa Pa)|].
  reflexivity.
Qed.

Lemma buckets_follow_table_witness :
  valid_input 26 32 7 0.005 /\
  (((Testing.bucket_temp 26 = "safe" <-> 24 <= 26 /\ 26 <= 28) /\
    (Testing.bucket_temp 26 = "moderate" <->
       (22 <= 26 /\ 26 < 24) \/ (28 < 26 /\ 26 <= 30)) /\
    (Testing.bucket_temp 26 = "high" <-> temp_high 26) /\
    (temp_high 26 <-> 26 < 22 \/ 30 < 26)) /\
   ((Testing.bucket_sal 32 = "safe" <-> 30 <= 32 /\ 32 <= 35) /\
    (Testing.bucket_sal 32 = "moderate" <->
       (28 <= 32 /\ 32 < 30) \/ (35 < 32 /\ 32 <= 37)) /\
    (Testing.bucket_sal 32 = "high" <-> sal_high 32) /\
    (sal_high 32 <-> 32 < 28 \/ 37 < 32)) /\
   ((Testing.bucket_do 7 = "safe" <-> 6 <= 7) /\
    (Testing.bucket_do 7 = "moderate" <-> 4 <= 7 /\ 7 < 6) /\
    (Testing.bucket_do 7 = "high" <-> 7 < 4)) /\
   ((Testing.bucket_nh3 0.005 = "safe" <-> 0.005 <= 0.02) /\
    (Testing.bucket_nh3 0.005 = "moderate" <-> 0.02 < 0.005 /\ 0.005 <= 0.05) /\
    (Testing.bucket_nh3 0.005 = "high" <-> 0.05 < 0.005)) /\
   Testing.bucket_do 4.0 = "moderate").
Proof.
  assert (V : valid_input 26 32 7 0.005) by (vm_compute; tauto).
  split; [exact V | exact (buckets_follow_table 26 32 7 0.005 V)].
Defined.

End Buckets.

(** ** Aggregation and factors (C2, C5), validation (C3), the two copies (C9) *)

Section Classifier.
Local Open Scope pyfloat_scope.

(** C2.  On every valid input the classifier returns a result whose risk is
    "high" if at least one of the four buckets is high, otherwise "medium" if
    at least one bucket is moderate, otherwise "low"; the risk is always one
    of low, medium, high, and one high factor forces "high" whatever the
    other factors are, as on (23.0, 29.0, 3.9, 0.04). *)
Theorem risk_aggregation (t s o a : float) :
  valid_input t s o a ->
  (exists r,
     Testing.classify_marine_health t s o a = Ret r /\
     let buckets := [Testing.bucket_temp t; Testing.bucket_sal s;
                     Testing.bucket_do o; Testing.bucket_nh3 a] in
     (In "high" buckets -> risk r = "high") /\
     (~ In "high" buckets -> In "moderate" buckets -> risk r = "medium") /\
     (~ In "high" buckets -> ~ In "moderate" buckets -> risk r = "low") /\
     (risk r = "low" \/ risk r = "medium" \/ risk r = "high")) /\
  risk_is (Testing.classify_marine_health 23.0 29.0 3.9 0.04) "high".
Proof.
  intros V. split; [|eexists; split; reflexivity].
  eexists. split; [apply (classify_valid t s o a V)|].
  cbn [risk].
  set (buckets := [Testing.bucket_temp t; Testing.bucket_sal s;
                   Testing.bucket_do o; Testing.bucket_nh3 a]).
  cbv zeta.
  destruct (contains "high" buckets) eqn:Hh;
    [apply contains_In in Hh | apply not_true_iff_false in Hh; rewrite contains_In in Hh];
    (destruct (contains "moderate" buckets) eqn:Hm;
     [apply contains_In in Hm
     | apply not_true_iff_false in Hm; rewrite contains_In in Hm]);
    repeat split; tauto.
Qed.

Lemma risk_aggregation_witness :
  valid_input 23.5 36.0 5.5 0.01 /\
  (exists r,
     Testing.classify_marine_health 23.5 36.0 5.5 0.01 = Ret r /\
     let buckets := [Testing.bucket_temp 23.5; Testing.bucket_sal 36.0;
                     Testing.bucket_do 5.5; Testing.bucket_nh3 0.01] in
     (In "high" buckets -> risk r = "high") /\
     (~ In "high" buckets -> In "moderate" buckets -> risk r = "medium") /\
     (~ In "high" buckets -> ~ In "moderate" buckets -> risk r = "low") /\
     (risk r = "low" \/ risk r = "medium" \/ risk r = "high")) /\
  risk_is (Testing.classify_marine_health 23.0 29.0 3.9 0.04) "high".
Proof.
  assert (V : valid_input 23.5 36.0 5.5 0.01) by (vm_compute; tauto).
  split; [exact V | exact (risk_aggregation 23.5 36.0 5.5 0.01 V)].
Defined.

(** C3.  Each copy of the classifier raises [ValueError] exactly when some
    input is a NaN or an infinity, or [temp_c <= 0], [sal_psu <= 0],
    [do_mgL <= 0] or [nh3_mgL < 0]; it then produces no result; on every
    other input, which are the valid inputs, it returns a result; and it
    raises nothing but [ValueError]. *)
Theorem validation_error_iff (t s o a : float) :
  ((exists msg, Testing.classify_marine_health t s o a = Raise (ValueError msg))
     <-> invalid_input t s o a) /\
  ((exists r, Testing.classify_marine_health t s o a = Ret r)
     <-> ~ invalid_input t s o a) /\
  ((exists r, Testing.classify_marine_health t s o a = Ret r)
     <-> valid_input t s o a) /\
  (forall e, Testing.classify_marine_health t s o a = Raise e ->
     exists msg, e = ValueError msg) /\
  ((exists msg, C2.classify_marine_health t s o a = Raise (ValueError msg))
     <-> invalid_input t s o a) /\
  ((exists r, C2.classify_marine_health t s o a = Ret r)
     <-> valid_input t s o a) /\
  (forall e, C2.classify_marine_health t s o a = Raise e ->
     exists msg, e = ValueError msg).
Proof.
  rewrite (copies_agree t s o a).
  assert (R : (exists r, Testing.classify_marine_health t s o a = Ret r)
              <-> valid_input t s o a).
  { split.
    - intros [r Hr]. apply valid_not_invalid. intros I.
      destruct (classify_invalid t s o a I) as [msg E]. congruence.
    - intros V. eexists. apply (classify_valid t s o a V). }
  assert (I : forall e, Testing.classify_marine_health t s o a = Raise e ->
              invalid_input t s o a).
  { intros e He. destruct (valid_or_invalid t s o a) as [V|I]; [|exact I].
    rewrite (classify_valid t s o a V) in He. discriminate. }
  assert (E : (exists msg, Testing.classify_marine_health t s o a = Raise (ValueError msg))
              <-> invalid_input t s o a).
  { split.
    - intros [msg Hm]. exact (I _ Hm).
    - apply classify_invalid. }
  assert (K : forall e, Testing.classify_marine_health t s o a = Raise e ->
              exists msg, e = ValueError msg).
  { intros e He. destruct (classify_invalid t s o a (I e He)) as [msg Hm].
    exists msg. congruence. }
  split; [exact E|].
  split; [rewrite <- valid_not_invalid; exact R|].
  split; [exact R|].
  split; [exact K|].
  split; [exact E|].
  split; [exact R | exact K].
Qed.

(** C5.  On every valid input the returned factor list holds exactly the
    names of the readings whose bucket is not safe, in the fixed order temp,
    salinity, dissolved_oxygen, ammonia, each at most once and nothing
    else. *)
Theorem factors_are_unsafe_readings (t s o a : float) :
  valid_input t s o a ->
  exists r,
    Testing.classify_marine_health t s o a = Ret r /\
    selection (factors r) factor_names /\
    NoDup (factors r) /\
    (forall n, In n (factors r) <->
       (n = "temp" /\ Testing.bucket_temp t <> "safe") \/
       (n = "salinity" /\ Testing.bucket_sal s <> "safe") \/
       (n = "dissolved_oxygen" /\ Testing.bucket_do o <> "safe") \/
       (n = "ammonia" /\ Testing.bucket_nh3 a <> "safe")).
Proof.
  intros V. eexists. split; [apply (classify_valid t s o a V)|].
  cbn [factors filter map fst snd].
  destruct (String.eqb_spec (Testing.bucket_temp t) "safe") as [Et|Et];
  destruct (String.eqb_spec (Testing.bucket_sal s) "safe") as [Es|Es];
  destruct (String.eqb_spec (Testing.bucket_do o) "safe") as [Eo|Eo];
  destruct (String.eqb_spec (Testing.bucket_nh3 a) "safe") as [Ea|Ea];
  cbn [negb map fst];
  (split; [unfold factor_names; repeat constructor|]);
  (split; [repeat constructor; cbn [In]; intuition discriminate|]);
  intros n; cbn [In]; intuition (try congruence; try discriminate).
Qed.

Lemma factors_are_unsafe_readings_witness :
  valid_input 23.5 36.0 5.5 0.01 /\
  exists r,
    Testing.classify_marine_health 23.5 36.0 5.5 0.01 = Ret r /\
    selection (factors r) factor_names /\
    NoDup (factors r) /\
    (forall n, In n (factors r) <->
       (n = "temp" /\ Testing.bucket_temp 23.5 <> "safe") \/
       (n = "salinity" /\ Testing.bucket_sal 36.0 <> "safe") \/
       (n = "dissolved_oxygen" /\ Testing.bucket_do 5.5 <> "safe") \/
       (n = "ammonia" /\ Testing.bucket_nh3 0.01 <> "safe")).
Proof.
  assert (V : valid_input 23.5 36.0 5.5 0.01) by (vm_compute; tauto).
  split; [exact V | exact (factors_are_unsafe_readings 23.5 36.0 5.5 0.01 V)].
Defined.

(** C9.  The two copies of the classifier are extensionally equal: on every
    four floats either both raise the validation error, with the same
    message, or both return the same risk and the same factor list. *)
Theorem classifier_copies_equal (t s o a : float) :
  Testing.classify_marine_health t s o a = C2.classify_marine_health t s o a /\
  ((exists msg,
      Testing.classify_marine_health t s o a = Raise (ValueError msg) /\
      C2.classify_marine_health t s o a = Raise (ValueError msg)) \/
   (exists r1 r2,
      Testing.classify_marine_health t s o a = Ret r1 /\
      C2.classify_marine_health t s o a = Ret r2 /\
      risk r1 = risk r2 /\ factors r1 = factors r2)).
Proof.
  split; [reflexivity|].
  rewrite (copies_agree t s o a).
  destruct (valid_or_invalid t s o a) as [V|I].
  - right. rewrite (classify_valid t s o a V).
    do 2 eexists. repeat split; reflexivity.
  - left. destruct (classify_invalid t s o a I) as [msg E].
    exists msg. split; exact E.
Qed.

End Classifier.

(** ** Moving one reading across its bands (C6) *)

Section Monotonicity.
Local Open Scope pyfloat_scope.

Lemma risk_is_valid (t s o a : float) (x : string) :
  valid_input t s o a ->
  (if contains "high" [Testing.bucket_temp t; Testing.bucket_sal s;
                       Testing.bucket_do o; Testing.bucket_nh3 a]
   then "high"
   else if contains "moderate" [Testing.bucket_temp t; Testing.bucket_sal s;
                                Testing.bucket_do o; Testing.bucket_nh3 a]
   then "medium" else "low") = x ->
  risk_is (Testing.classify_marine_health t s o a) x.
Proof.
  intros V E. eexists. split; [apply (classify_valid t s o a V) | exact E].
Qed.

(** A value inside a band with finite ends is a valid reading. *)
Lemma between_valid (c x d : float) :
  finite c -> finite d -> 0 < c -> c <= x -> x <= d -> finite x /\ 0 < x.
Proof.
  intros Fc Fd Pc H1 H2. split.
  - exact (le_finite c x d Fc Fd H1 H2).
  - exact (lt_le_trans 0 c x Pc H1).
Qed.

Ltac closed_float := first [reflexivity | split; reflexivity].

Lemma temp_safe_valid (t : float) : temp_safe t -> finite t /\ 0 < t.
Proof.
  intros [H1 H2].
  apply (between_valid 24 t 28); [closed_float .. | exact H1 | exact H2].
Qed.

Lemma temp_moderate_valid (t : float) : temp_moderate t -> finite t /\ 0 < t.
Proof.
  intros [[H1 H2]|[H1 H2]].
  - apply (between_valid 22 t 24);
      [closed_float .. | exact H1 | apply lt_le_incl; exact H2].
  - apply (between_valid 28 t 30);
      [closed_float .. | apply lt_le_incl; exact H1 | exact H2].
Qed.

Lemma sal_safe_valid (s : float) : sal_safe s -> finite s /\ 0 < s.
Proof.
  intros [H1 H2].
  apply (between_valid 30 s 35); [closed_float .. | exact H1 | exact H2].
Qed.

Lemma sal_moderate_valid (s : float) : sal_moderate s -> finite s /\ 0 < s.
Proof.
  intros [[H1 H2]|[H1 H2]].
  - apply (between_valid 28 s 30);
      [closed_float .. | exact H1 | apply lt_le_incl; exact H2].
  - apply (between_valid 35 s 37);
      [closed_float .. | apply lt_le_incl; exact H1 | exact H2].
Qed.

Lemma do_moderate_valid (o : float) : do_moderate o -> finite o /\ 0 < o.
Proof.
  intros [H1 H2].
  apply (between_valid 4 o 6);
    [closed_float .. | exact H1 | apply lt_le_incl; exact H2].
Qed.

Lemma nh3_moderate_valid (a : float) : nh3_moderate a -> finite a /\ 0 < a.
Proof.
  intros [H1 H2].
  apply (between_valid 0.02 a 0.05);
    [closed_float .. | apply lt_le_incl; exact H1 | exact H2].
Qed.

Ltac center_valid :=
  repeat match goal with H : finite _ |- _ => destruct H end;
  unfold valid_input, finite; repeat split; try assumption; try reflexivity.

Ltac by_bucket E := apply risk_is_valid; [center_valid | rewrite E; reflexivity].

(** C6, as amended.  With the three other readings at the safe centre values
    temp=26, sal=32, do=7, nh3=0.0: every value of the remaining reading
    inside its safe band gives risk "low", where for dissolved oxygen the
    value is finite and for ammonia it is not negative; every value inside
    its moderate band gives "medium"; and every valid value inside its high
    band gives "high". *)
Theorem band_monotonicity :
  (forall t,
     (temp_safe t -> risk_is (Testing.classify_marine_health t 32 7 0.0) "low") /\
     (temp_moderate t -> risk_is (Testing.classify_marine_health t 32 7 0.0) "medium") /\
     (finite t -> 0 < t -> temp_high t ->
        risk_is (Testing.classify_marine_health t 32 7 0.0) "high")) /\
  (forall s,
     (sal_safe s -> risk_is (Testing.classify_marine_health 26 s 7 0.0) "low") /\
     (sal_moderate s -> risk_is (Testing.classify_marine_health 26 s 7 0.0) "medium") /\
     (finite s -> 0 < s -> sal_high s ->
        risk_is (Testing.classify_marine_health 26 s 7 0.0) "high")) /\
  (forall o,
     (finite o -> do_safe o ->
        risk_is (Testing.classify_marine_health 26 32 o 0.0) "low") /\
     (do_moderate o -> risk_is (Testing.classify_marine_health 26 32 o 0.0) "medium") /\
     (finite o -> 0 < o -> do_high o ->
        risk_is (Testing.classify_marine_health 26 32 o 0.0) "high")) /\
  (forall a,
     (0 <= a -> nh3_safe a ->
        risk_is (Testing.classify_marine_health 26 32 7 a) "low") /\
     (nh3_moderate a -> risk_is (Testing.classify_marine_health 26 32 7 a) "medium") /\
     (finite a -> 0 <= a -> nh3_high a ->
        risk_is (Testing.classify_marine_health 26 32 7 a) "high")).
Proof.
  split; [|split; [|split]]; intros x; (split; [|split]).
  - intros B. destruct (temp_safe_valid x B) as [F P].
    by_bucket (proj2 (proj1 (temp_table x F P)) B).
  - intros B. destruct (temp_moderate_valid x B) as [F P].
    by_bucket (proj2 (proj1 (proj2 (temp_table x F P))) B).
  - intros F P B.
    by_bucket (proj2 (proj1 (proj2 (proj2 (temp_table x F P)))) B).
  - intros B. destruct (sal_safe_valid x B) as [F P].
    by_bucket (proj2 (proj1 (sal_table x F P)) B).
  - intros B. destruct (sal_moderate_valid x B) as [F P].
    by_bucket (proj2 (proj1 (proj2 (sal_table x F P))) B).
  - intros F P B.
    by_bucket (proj2 (proj1 (proj2 (proj2 (sal_table x F P)))) B).
  - intros F B.
    assert (P : 0 < x) by (apply (lt_le_trans 0 6 x); [reflexivity | exact B]).
    by_bucket (proj2 (proj1 (do_table x F P)) B).
  - intros B. destruct (do_moderate_valid x B) as [F P].
    by_bucket (proj2 (proj1 (proj2 (do_table x F P))) B).
  - intros F P B.
    by_bucket (proj2 (proj2 (proj2 (do_table x F P))) B).
  - intros P B.
    assert (F : finite x) by (apply (le_finite 0 x 0.02); [closed_float .. | exact P | exact B]).
    by_bucket (proj2 (proj1 (nh3_table x F P)) B).
  - intros B. destruct (nh3_moderate_valid x B) as [F P].
    apply lt_le_incl in P.
    by_bucket (proj2 (proj1 (proj2 (nh3_table x F P))) B).
  - intros F P B.
    by_bucket (proj2 (proj2 (proj2 (nh3_table x F P))) B).
Qed.

(** The claim as first stated fails for ammonia: -0.001 lies in the band
    "at most 0.02", and the classifier raises. *)
Lemma band_monotonicity_counterexample :
  is_double (-0.001) /\
  nh3_safe (-0.001) /\
  Testing.classify_marine_health 26 32 7 (-0.001)
    = Raise (ValueError "Invalid physical ranges.") /\
  ~ risk_is (Testing.classify_marine_health 26 32 7 (-0.001)) "low".
Proof.
  split; [reflexivity|]. split; [reflexivity|]. split; [reflexivity|].
  intros [r [E _]]. discriminate E.
Qed.

Lemma band_monotonicity_witness :
  (finite 31 /\ 0 < 31 /\ temp_high 31) /\
  risk_is (Testing.classify_marine_health 31 32 7 0.0) "high".
Proof.
  assert (F : finite 31) by (split; reflexivity).
  assert (P : 0 < 31) by reflexivity.
  assert (B : temp_high 31) by (split; vm_compute; intuition discriminate).
  split; [exact (conj F (conj P B))|].
  exact (proj2 (proj2 (proj1 band_monotonicity 31)) F P B).
Defined.

End Monotonicity.

(** ** The decision evaluator (C4, C8, C10) *)

Section Evaluator.
Local Open Scope pyfloat_scope.

(** The dictionary the evaluator builds, entry by entry. *)
Lemma eval_decisions_items (t s o a : float) :
  C2.eval_decisions t s o a =
  [ ("VAL_temp_gt0", t >? 0); ("VAL_sal_gt0", s >? 0);
    ("VAL_do_gt0", o >? 0); ("VAL_nh3_ge0", a >=? 0);
    ("T_safe_24_28", (24 <=? t) && (t <=? 28));
    ("T_moderate_22_24_or_28_30",
       ((22 <=? t) && (t <? 24)) || ((28 <? t) && (t <=? 30)));
    ("S_safe_30_35", (30 <=? s) && (s <=? 35));
    ("S_moderate_28_30_or_35_37",
       ((28 <=? s) && (s <? 30)) || ((35 <? s) && (s <=? 37)));
    ("DO_safe_ge6", o >=? 6); ("DO_high_lt4", o <? 4);
    ("NH3_safe_le_0_02", a <=? 0.02); ("NH3_high_gt_0_05", a >? 0.05);
    ("AGG_has_high",
       (negb ((24 <=? t) && (t <=? 28))
        && negb (((22 <=? t) && (t <? 24)) || ((28 <? t) && (t <=? 30))))
       || (negb ((30 <=? s) && (s <=? 35))
           && negb (((28 <=? s) && (s <? 30)) || ((35 <? s) && (s <=? 37))))
       || (o <? 4)
       || (negb (a <=? 0.02) && (a >? 0.05)));
    ("AGG_has_moderate",
       negb ((negb ((24 <=? t) && (t <=? 28))
              && negb (((22 <=? t) && (t <? 24)) || ((28 <? t) && (t <=? 30))))
             || (negb ((30 <=? s) && (s <=? 35))
                 && negb (((28 <=? s) && (s <? 30)) || ((35 <? s) && (s <=? 37))))
             || (o <? 4)
             || (negb (a <=? 0.02) && (a >? 0.05)))
       && ((((22 <=? t) && (t <? 24)) || ((28 <? t) && (t <=? 30)))
           || (((28 <=? s) && (s <? 30)) || ((35 <? s) && (s <=? 37)))
           || (negb (o >=? 6) && negb (o <? 4))
           || (negb (a <=? 0.02) && negb (a >? 0.05)))) ].
Proof. reflexivity. Qed.

Lemma eval_decisions_keys (t s o a : float) :
  PyDict.keys (C2.eval_decisions t s o a) = C2.DECISIONS.
Proof. rewrite eval_decisions_items. reflexivity. Qed.

(** Each bucket read off the evaluator's conditions. *)
Lemma temp_high_bool (t : float) :
  negb ((24 <=? t) && (t <=? 28))
  && negb (((22 <=? t) && (t <? 24)) || ((28 <? t) && (t <=? 30)))
  = String.eqb "high" (C2.bucket_temp t).
Proof.
  unfold C2.bucket_temp. unfold_cmp. zones_of t temp_zones; reflexivity.
Qed.

Lemma temp_moderate_bool (t : float) :
  ((22 <=? t) && (t <? 24)) || ((28 <? t) && (t <=? 30))
  = String.eqb "moderate" (C2.bucket_temp t).
Proof.
  unfold C2.bucket_temp. unfold_cmp. zones_of t temp_zones; reflexivity.
Qed.

Lemma sal_high_bool (s : float) :
  negb ((30 <=? s) && (s <=? 35))
  && negb (((28 <=? s) && (s <? 30)) || ((35 <? s) && (s <=? 37)))
  = String.eqb "high" (C2.bucket_sal s).
Proof.
  unfold C2.bucket_sal. unfold_cmp. zones_of s sal_zones; reflexivity.
Qed.

Lemma sal_moderate_bool (s : float) :
  ((28 <=? s) && (s <? 30)) || ((35 <? s) && (s <=? 37))
  = String.eqb "moderate" (C2.bucket_sal s).
Proof.
  unfold C2.bucket_sal. unfold_cmp. zones_of s sal_zones; reflexivity.
Qed.

Lemma do_high_bool (o : float) :
  (o <? 4) = String.eqb "high" (C2.bucket_do o).
Proof.
  unfold C2.bucket_do. unfold_cmp. zones_of o do_zones; reflexivity.
Qed.

Lemma do_moderate_bool (o : float) :
  negb (o >=? 6) && negb (o <? 4) = String.eqb "moderate" (C2.bucket_do o).
Proof.
  unfold C2.bucket_do. unfold_cmp. zones_of o do_zones; reflexivity.
Qed.

Lemma nh3_high_bool (a : float) :
  negb (a <=? 0.02) && (a >? 0.05) = String.eqb "high" (C2.bucket_nh3 a).
Proof.
  unfold C2.bucket_nh3. unfold_cmp. zones_of a nh3_zones; reflexivity.
Qed.

Lemma nh3_moderate_bool (a : float) :
  negb (a <=? 0.02) && negb (a >? 0.05) = String.eqb "moderate" (C2.bucket_nh3 a).
Proof.
  unfold C2.bucket_nh3. unfold_cmp. zones_of a nh3_zones; reflexivity.
Qed.

(** The two aggregate decisions are the classifier's two membership tests. *)
Ltac read_key :=
  rewrite eval_decisions_items;
  cbn [PyDict.getitem String.eqb Ascii.eqb Bool.eqb].

Lemma agg_high_bool (t s o a : float) :
  PyDict.getitem (C2.eval_decisions t s o a) "AGG_has_high" =
  Some (contains "high" [C2.bucket_temp t; C2.bucket_sal s;
                         C2.bucket_do o; C2.bucket_nh3 a]).
Proof.
  read_key.
  rewrite temp_high_bool, sal_high_bool, do_high_bool, nh3_high_bool.
  unfold contains. cbn [existsb].
  now rewrite orb_false_r, !orb_assoc.
Qed.

Lemma agg_moderate_bool (t s o a : float) :
  PyDict.getitem (C2.eval_decisions t s o a) "AGG_has_moderate" =
  Some (negb (contains "high" [C2.bucket_temp t; C2.bucket_sal s;
                               C2.bucket_do o; C2.bucket_nh3 a])
        && contains "moderate" [C2.bucket_temp t; C2.bucket_sal s;
                                C2.bucket_do o; C2.bucket_nh3 a]).
Proof.
  read_key.
  rewrite temp_high_bool, sal_high_bool, do_moderate_bool, nh3_high_bool.
  rewrite temp_moderate_bool, sal_moderate_bool, do_high_bool,
    nh3_moderate_bool.
  unfold contains. cbn [existsb].
  now rewrite !orb_false_r, !orb_assoc.
Qed.

(** C4.  On every valid input the evaluator agrees with the classifier: the
    risk read off [AGG_has_high] and [AGG_has_moderate] ("high" when the
    first is true, else "medium" when the second is true, else "low") is the
    risk the classifier returns on the same four inputs. *)
Theorem evaluator_agrees_with_classifier (t s o a : float) :
  valid_input t s o a ->
  exists r,
    C2.classify_marine_health t s o a = Ret r /\
    risk_of_decisions (C2.eval_decisions t s o a) = Some (risk r).
Proof.
  intros V. eexists. split.
  - rewrite (copies_agree t s o a). apply (classify_valid t s o a V).
  - unfold risk_of_decisions.
    rewrite agg_high_bool, agg_moderate_bool. cbn [risk].
    change Testing.bucket_temp with C2.bucket_temp.
    change Testing.bucket_sal with C2.bucket_sal.
    change Testing.bucket_do with C2.bucket_do.
    change Testing.bucket_nh3 with C2.bucket_nh3.
    destruct (contains "high" _); [reflexivity|].
    destruct (contains "moderate" _); reflexivity.
Qed.

Lemma evaluator_agrees_with_classifier_witness :
  valid_input 23.0 29.0 3.9 0.04 /\
  exists r,
    C2.classify_marine_health 23.0 29.0 3.9 0.04 = Ret r /\
    risk_of_decisions (C2.eval_decisions 23.0 29.0 3.9 0.04) = Some (risk r).
Proof.
  assert (V : valid_input 23.0 29.0 3.9 0.04) by (vm_compute; tauto).
  split; [exact V | exact (evaluator_agrees_with_classifier 23.0 29.0 3.9 0.04 V)].
Defined.

(** Lookups in a dict. *)
Lemma getitem_in_keys (V : Type) (d : PyDict.dict V) (k : string) :
  In k (PyDict.keys d) -> exists v, PyDict.getitem d k = Some v.
Proof.
  induction d as [|[k' v'] d IH]; cbn; [contradiction|].
  intros [E|H].
  - subst k'. rewrite String.eqb_refl. now exists v'.
  - destruct (String.eqb k' k); [now exists v' | exact (IH H)].
Qed.

Lemma getitem_not_in_keys (V : Type) (d : PyDict.dict V) (k : string) :
  ~ In k (PyDict.keys d) -> PyDict.getitem d k = None.
Proof.
  induction d as [|[k' v'] d IH]; cbn; [reflexivity|].
  intros H. destruct (String.eqb_spec k' k) as [E|E].
  - exfalso. apply H. now left.
  - apply IH. intros I. apply H. now right.
Qed.

Lemma decisions_distinct : NoDup C2.DECISIONS.
Proof.
  unfold C2.DECISIONS.
  repeat (constructor; [cbn [In]; intuition discriminate|]).
  constructor.
Qed.

Ltac decided :=
  eexists; split; [read_key; reflexivity|];
  unfold_cmp; rewrite ?orb_true_iff, ?andb_true_iff; reflexivity.

(** C8.  On every input the evaluator returns a mapping whose keys are
    exactly the 14 named decisions, and each decision means what its name
    says: the four validation keys hold iff [temp_c > 0], [sal_psu > 0],
    [do_mgL > 0], [nh3_mgL >= 0]; the eight bucket keys hold iff the band
    condition of the threshold table holds; [AGG_has_high] holds iff some
    factor is high; [AGG_has_moderate] holds iff no factor is high and some
    factor is moderate. *)
Theorem decisions_meaning (t s o a : float) :
  let d := C2.eval_decisions t s o a in
  let buckets := [C2.bucket_temp t; C2.bucket_sal s;
                  C2.bucket_do o; C2.bucket_nh3 a] in
  (PyDict.keys d = C2.DECISIONS /\ NoDup C2.DECISIONS /\
   List.length C2.DECISIONS = 14%nat) /\
  (decides d "VAL_temp_gt0" (0 < t) /\
   decides d "VAL_sal_gt0" (0 < s) /\
   decides d "VAL_do_gt0" (0 < o) /\
   decides d "VAL_nh3_ge0" (0 <= a)) /\
  (decides d "T_safe_24_28" (temp_safe t) /\
   decides d "T_moderate_22_24_or_28_30" (temp_moderate t) /\
   decides d "S_safe_30_35" (sal_safe s) /\
   decides d "S_moderate_28_30_or_35_37" (sal_moderate s) /\
   decides d "DO_safe_ge6" (do_safe o) /\
   decides d "DO_high_lt4" (do_high o) /\
   decides d "NH3_safe_le_0_02" (nh3_safe a) /\
   decides d "NH3_high_gt_0_05" (nh3_high a)) /\
  decides d "AGG_has_high" (In "high" buckets) /\
  decides d "AGG_has_moderate" (~ In "high" buckets /\ In "moderate" buckets).
Proof.
  cbv zeta.
  split; [split; [apply eval_decisions_keys | split; [apply decisions_distinct | reflexivity]]|].
  split; [repeat split; decided|].
  split; [repeat split; decided|].
  split.
  - eexists. split; [apply agg_high_bool | apply contains_In].
  - eexists. split; [apply agg_moderate_bool|].
    rewrite andb_true_iff, negb_true_iff, <- not_true_iff_false, !contains_In.
    reflexivity.
Qed.

(** C10.  The evaluator is total over all four-float inputs, NaN, infinities,
    zero and negative values included: it always returns a mapping with
    exactly the 14 decision keys, each bound to a boolean; a NaN input makes
    every comparison on it false; and this holds on the very inputs the
    classifier rejects. *)
Theorem eval_decisions_total (t s o a : float) :
  let d := C2.eval_decisions t s o a in
  PyDict.keys d = C2.DECISIONS /\
  (forall k, In k C2.DECISIONS -> exists b, PyDict.getitem d k = Some b) /\
  (forall k, ~ In k C2.DECISIONS -> PyDict.getitem d k = None) /\
  (isnan t = true ->
     PyDict.getitem d "VAL_temp_gt0" = Some false /\
     PyDict.getitem d "T_safe_24_28" = Some false /\
     PyDict.getitem d "T_moderate_22_24_or_28_30" = Some false) /\
  (isnan s = true ->
     PyDict.getitem d "VAL_sal_gt0" = Some false /\
     PyDict.getitem d "S_safe_30_35" = Some false /\
     PyDict.getitem d "S_moderate_28_30_or_35_37" = Some false) /\
  (isnan o = true ->
     PyDict.getitem d "VAL_do_gt0" = Some false /\
     PyDict.getitem d "DO_safe_ge6" = Some false /\
     PyDict.getitem d "DO_high_lt4" = Some false) /\
  (isnan a = true ->
     PyDict.getitem d "VAL_nh3_ge0" = Some false /\
     PyDict.getitem d "NH3_safe_le_0_02" = Some false /\
     PyDict.getitem d "NH3_high_gt_0_05" = Some false) /\
  (invalid_input t s o a ->
     exists msg, C2.classify_marine_health t s o a = Raise (ValueError msg)).
Proof.
  cbv zeta.
  split; [apply eval_decisions_keys|].
  split; [intros k Hk; apply getitem_in_keys; now rewrite eval_decisions_keys|].
  split; [intros k Hk; apply getitem_not_in_keys; now rewrite eval_decisions_keys|].
  split; [intros N; apply isnan_true in N; subst t; repeat split; read_key; reflexivity|].
  split; [intros N; apply isnan_true in N; subst s; repeat split; read_key; reflexivity|].
  split; [intros N; apply isnan_true in N; subst o; repeat split; read_key; reflexivity|].
  split; [intros N; apply isnan_true in N; subst a; repeat split; read_key; reflexivity|].
  intros I. rewrite (copies_agree t s o a). exact (classify_invalid t s o a I).
Qed.

Lemma eval_decisions_total_witness :
  (isnan nan = true /\ invalid_input nan inf 0 (-0.001)) /\
  (PyDict.getitem (C2.eval_decisions nan inf 0 (-0.001)) "VAL_temp_gt0" = Some false /\
   PyDict.getitem (C2.eval_decisions nan inf 0 (-0.001)) "T_safe_24_28" = Some false /\
   PyDict.getitem (C2.eval_decisions nan inf 0 (-0.001)) "T_moderate_22_24_or_28_30"
     = Some false) /\
  exists msg,
    C2.classify_marine_health nan inf 0 (-0.001) = Raise (ValueError msg).
Proof.
  assert (N : isnan nan = true) by reflexivity.
  assert (I : invalid_input nan inf 0 (-0.001)) by (left; left; reflexivity).
  pose proof (eval_decisions_total nan inf 0 (-0.001)) as T. cbv zeta in T.
  destruct T as (_ & _ & _ & Tn & _ & _ & _ & Ti).
  split; [exact (conj N I)|]. split; [exact (Tn N) | exact (Ti I)].
Defined.

End Evaluator.

(** ** The test corpus and the coverage report (C7) *)

Section Coverage.

Lemma observed_spec (k : string) (b : bool) :
  observed k b = true ->
  exists inp, In inp corpus /\ PyDict.getitem (C2.eval_kw inp) k = Some b.
Proof.
  unfold observed. rewrite existsb_exists.
  intros (inp & Hin & H). exists inp. split; [exact Hin|].
  destruct (PyDict.getitem (C2.eval_kw inp) k) as [v|]; [|discriminate].
  apply Bool.eqb_prop in H. now subst.
Qed.

(** C7.  Over the literal corpus, the 9 entries of [TESTS] and the 4 of
    [ERROR_TESTS], each of the 14 named decisions is true on at least one
    input and false on at least one; [main] therefore finds no missing
    decision and prints that C2 is achieved for all tracked decisions. *)
Theorem corpus_covers_all_decisions :
  (List.length C2.TESTS = 9%nat /\ List.length C2.ERROR_TESTS = 4%nat /\
   List.length C2.DECISIONS = 14%nat) /\
  (forall k, In k C2.DECISIONS ->
     (exists inp, In inp corpus /\ PyDict.getitem (C2.eval_kw inp) k = Some true) /\
     (exists inp, In inp corpus /\ PyDict.getitem (C2.eval_kw inp) k = Some false)) /\
  exists rep,
    C2.main = Ret rep /\
    C2.missing rep = [] /\
    C2.verdict rep = "[RESULT] C2 achieved for all tracked decisions." /\
    C2.passed rep = 13%nat /\ C2.total rep = 13%nat /\
    C2.table rep = map (fun k => (k, true, true)) C2.DECISIONS.
Proof.
  split; [repeat split|].
  split.
  - assert (A : forallb (fun k => observed k true && observed k false) C2.DECISIONS = true)
      by (vm_compute; reflexivity).
    rewrite forallb_forall in A.
    intros k Hk. specialize (A k Hk). apply andb_true_iff in A.
    split; apply observed_spec; tauto.
  - eexists. split; [vm_compute; reflexivity|].
    repeat split.
Qed.

End Coverage.

(** ** Literals and boundary values *)

Section Literals.
Local Open Scope pyfloat_scope.

(** The two decimal thresholds, as Python reads them. *)
Lemma literal_0_02 :
  of_decimal 2 2 = S754_finite false 5764607523034235 (-58) /\ nearest 0.02 2 100.
Proof. split; [vm_compute; reflexivity | split; [reflexivity | vm_compute; discriminate]]. Qed.

Lemma literal_0_05 :
  of_decimal 5 2 = S754_finite false 7205759403792794 (-57) /\ nearest 0.05 5 100.
Proof. split; [vm_compute; reflexivity | split; [reflexivity | vm_compute; discriminate]]. Qed.

Lemma thresholds_are_doubles :
  Forall is_double [0; 22; 24; 28; 30; 35; 37; 4; 6; 0.02; 0.05].
Proof. repeat constructor. Qed.

(** The boundary values of the test suite. *)
Lemma boundary_values :
  let at_temp t := Testing.classify_marine_health t 32 7 0.0 in
  let at_sal s := Testing.classify_marine_health 26 s 7 0.0 in
  let at_do o := Testing.classify_marine_health 26 32 o 0.0 in
  let at_nh3 a := Testing.classify_marine_health 26 32 7 a in
  (risk_is (at_temp 24.0) "low" /\ risk_is (at_temp 23.99) "medium" /\
   risk_is (at_temp 23.999999) "medium" /\
   risk_is (at_temp 28.0) "low" /\ risk_is (at_temp 28.01) "medium" /\
   risk_is (at_temp 21.9) "high" /\ risk_is (at_temp 30.1) "high") /\
  (risk_is (at_sal 30.0) "low" /\ risk_is (at_sal 29.99) "medium" /\
   risk_is (at_sal 35.0) "low" /\ risk_is (at_sal 35.01) "medium" /\
   risk_is (at_sal 27.9) "high" /\ risk_is (at_sal 37.1) "high") /\
  (risk_is (at_do 6.0) "low" /\ risk_is (at_do 5.99) "medium" /\
   risk_is (at_do 4.0) "medium" /\ risk_is (at_do 3.99) "high" /\
   risk_is (at_do 1.99) "high") /\
  (risk_is (at_nh3 0.02) "low" /\ risk_is (at_nh3 0.02001) "medium" /\
   risk_is (at_nh3 0.05) "medium" /\ risk_is (at_nh3 0.05001) "high") /\
  risk_is (Testing.classify_marine_health 23.5 36.0 5.5 0.01) "medium".
Proof. cbv zeta. repeat split; eexists; split; reflexivity. Qed.

End Literals.

(** ** Exact values

    A finite double is a whole number of units of 2^-1074, and on doubles the
    IEEE comparisons compare these numbers. *)

Section ExactValues.
Local Open Scope Z_scope.

Lemma digits2_bounds (m : positive) :
  2 ^ (Z.pos (digits2_pos m) - 1) <= Z.pos m < 2 ^ Z.pos (digits2_pos m).
Proof.
  induction m as [m IH|m IH|]; cbn [digits2_pos].
  - rewrite Pos2Z.inj_succ.
    replace (Z.succ (Z.pos (digits2_pos m)) - 1) with (Z.succ (Z.pos (digits2_pos m) - 1)) by lia.
    rewrite !Z.pow_succ_r by lia. lia.
  - rewrite Pos2Z.inj_succ.
    replace (Z.succ (Z.pos (digits2_pos m)) - 1) with (Z.succ (Z.pos (digits2_pos m) - 1)) by lia.
    rewrite !Z.pow_succ_r by lia. lia.
  - cbn. lia.
Qed.

(** What being a double says of a mantissa and its exponent. *)
Lemma bounded_facts (m : positive) (e : Z) :
  bounded prec emax m e = true ->
  -1074 <= e /\ Z.pos m < 2 ^ 53 /\ (-1074 < e -> 2 ^ 52 <= Z.pos m).
Proof.
  unfold bounded, canonical_mantissa, fexp, emin, prec, emax.
  intros H. apply andb_true_iff in H. destruct H as [H _].
  apply Z.eqb_eq in H.
  pose proof (digits2_bounds m) as [D1 D2].
  set (d := Z.pos (digits2_pos m)) in *.
  assert (Hd : 0 < d) by (unfold d; lia).
  split; [lia|]. split.
  - assert (d <= 53) by lia.
    apply Z.lt_le_trans with (2 ^ d); [exact D2|].
    apply Z.pow_le_mono_r; lia.
  - intros He. assert (d = 53) by lia.
    replace 52 with (d - 1) by lia. exact D1.
Qed.

(** A larger exponent wins, whatever the mantissas. *)
Lemma exponent_decides (m1 m2 : positive) (e1 e2 : Z) :
  bounded prec emax m1 e1 = true -> bounded prec emax m2 e2 = true ->
  e1 < e2 ->
  Z.pos m1 * 2 ^ (e1 + 1074) < Z.pos m2 * 2 ^ (e2 + 1074).
Proof.
  intros B1 B2 He.
  destruct (bounded_facts m1 e1 B1) as (L1 & U1 & _).
  destruct (bounded_facts m2 e2 B2) as (L2 & _ & N2).
  assert (N : -1074 < e2) by lia. specialize (N2 N).
  replace (e2 + 1074) with ((e2 - e1 - 1) + 1 + (e1 + 1074)) by lia.
  rewrite (Z.pow_add_r 2 (e2 - e1 - 1 + 1) (e1 + 1074)) by lia.
  rewrite (Z.pow_add_r 2 (e2 - e1 - 1) 1) by lia. change (2 ^ 1) with 2.
  assert (P : 0 < 2 ^ (e1 + 1074)) by (apply Z.pow_pos_nonneg; lia).
  assert (Q : 1 <= 2 ^ (e2 - e1 - 1))
    by (pose proof (Z.pow_pos_nonneg 2 (e2 - e1 - 1)); lia).
  change (2 ^ 53) with 9007199254740992 in U1.
  change (2 ^ 52) with 4503599627370496 in N2.
  generalize dependent (2 ^ (e1 + 1074)). generalize dependent (2 ^ (e2 - e1 - 1)).
  intros B HB A HA.
  assert (S1 : Z.pos m1 * A < 9007199254740992 * A)
    by (apply Z.mul_lt_mono_pos_r; assumption).
  assert (S2 : 4503599627370496 * 1 <= Z.pos m2 * B)
    by (apply Z.mul_le_mono_nonneg; lia).
  assert (S3 : (4503599627370496 * 1) * (2 * A) <= (Z.pos m2 * B) * (2 * A))
    by (apply Z.mul_le_mono_nonneg_r; lia).
  lia.
Qed.

Lemma magnitude_compare (m1 m2 : positive) (e1 e2 : Z) :
  bounded prec emax m1 e1 = true -> bounded prec emax m2 e2 = true ->
  match e1 ?= e2 with
  | Eq => Pos.compare m1 m2
  | Lt => Lt
  | Gt => Gt
  end = (Z.pos m1 * 2 ^ (e1 + 1074) ?= Z.pos m2 * 2 ^ (e2 + 1074)).
Proof.
  intros B1 B2. symmetry.
  destruct (Z.compare_spec e1 e2) as [E|L|G].
  - subst e2. destruct (bounded_facts m1 e1 B1) as (L1 & _).
    assert (P : 0 < 2 ^ (e1 + 1074)) by (apply Z.pow_pos_nonneg; lia).
    rewrite Pos2Z.inj_compare.
    destruct (Z.compare_spec (Z.pos m1) (Z.pos m2)) as [E|L|G].
    + rewrite E. apply Z.compare_refl.
    + apply Z.compare_lt_iff. now apply Z.mul_lt_mono_pos_r.
    + apply Z.compare_gt_iff. now apply Z.mul_lt_mono_pos_r.
  - apply Z.compare_lt_iff. now apply exponent_decides.
  - apply Z.compare_gt_iff. apply exponent_decides; [assumption .. | lia].
Qed.

Lemma units_sign (m : positive) (e : Z) :
  bounded prec emax m e = true -> 0 < Z.pos m * 2 ^ (e + 1074).
Proof.
  intros B. destruct (bounded_facts m e B) as (L & _).
  apply Z.mul_pos_pos; [lia | apply Z.pow_pos_nonneg; lia].
Qed.

(** On finite doubles the IEEE comparison is the comparison of the exact
    values. *)
Lemma SFcompare_units (x y : float) :
  is_double x -> is_double y -> finite x -> finite y ->
  SFcompare x y = Some (units x ?= units y).
Proof.
  unfold is_double, finite.
  destruct x as [sx|sx| |sx mx ex]; intros Dx Dy [Fx Fx'] [Fy Fy'];
    try discriminate;
  destruct y as [sy|sy| |sy my ey]; try discriminate; cbn in Dx, Dy.
  - reflexivity.
  - pose proof (units_sign my ey Dy) as P.
    cbn [SFcompare units]. f_equal. symmetry.
    destruct sy; [apply Z.compare_gt_iff | apply Z.compare_lt_iff]; lia.
  - pose proof (units_sign mx ex Dx) as P.
    cbn [SFcompare units]. f_equal. symmetry.
    destruct sx; [apply Z.compare_lt_iff | apply Z.compare_gt_iff]; lia.
  - pose proof (units_sign mx ex Dx) as Px.
    pose proof (units_sign my ey Dy) as Py.
    pose proof (magnitude_compare mx my ex ey Dx Dy) as M.
    cbn [SFcompare units]. f_equal.
    change (PosDef.Pos.compare_cont Eq mx my) with (Pos.compare mx my).
    destruct sx, sy.
    + rewrite Z.compare_opp, (Z.compare_antisym _ (Z.pos my * _)), <- M.
      destruct (ex ?= ey); reflexivity.
    + symmetry. apply Z.compare_lt_iff. lia.
    + symmetry. apply Z.compare_gt_iff. lia.
    + exact M.
Qed.

Lemma leb_units (x y : float) :
  is_double x -> is_double y -> finite x -> finite y ->
  (SFleb x y = true <-> units x <= units y).
Proof.
  intros Dx Dy Fx Fy. unfold SFleb.
  rewrite (SFcompare_units x y Dx Dy Fx Fy).
  unfold Z.le. destruct (units x ?= units y); intuition congruence.
Qed.

Lemma ltb_units (x y : float) :
  is_double x -> is_double y -> finite x -> finite y ->
  (SFltb x y = true <-> units x < units y).
Proof.
  intros Dx Dy Fx Fy. unfold SFltb.
  rewrite (SFcompare_units x y Dx Dy Fx Fy).
  unfold Z.lt. destruct (units x ?= units y); intuition congruence.
Qed.

End ExactValues.

(** ** The threshold table on exact values

    For a double, membership in a band is membership of its exact value in
    the interval between the exact values of the thresholds. *)

Section ExactTable.
Local Open Scope pyfloat_scope.

Lemma integer_thresholds :
  (units 22 = 22 * 2 ^ 1074 /\ units 24 = 24 * 2 ^ 1074 /\
   units 28 = 28 * 2 ^ 1074 /\ units 30 = 30 * 2 ^ 1074 /\
   units 35 = 35 * 2 ^ 1074 /\ units 37 = 37 * 2 ^ 1074 /\
   units 4 = 4 * 2 ^ 1074 /\ units 6 = 6 * 2 ^ 1074)%Z.
Proof. repeat split; vm_compute; reflexivity. Qed.

Ltac exact_values :=
  unfold_cmp;
  rewrite ?leb_units, ?ltb_units
    by first [assumption | reflexivity | split; reflexivity];
  reflexivity.

Lemma bands_on_exact_values (x : float) :
  is_double x -> finite x ->
  (temp_safe x <-> units 24 <= units x <= units 28)%Z /\
  (temp_moderate x <->
     units 22 <= units x < units 24 \/ units 28 < units x <= units 30)%Z /\
  (sal_safe x <-> units 30 <= units x <= units 35)%Z /\
  (sal_moderate x <->
     units 28 <= units x < units 30 \/ units 35 < units x <= units 37)%Z /\
  (do_safe x <-> units 6 <= units x)%Z /\
  (do_moderate x <-> units 4 <= units x < units 6)%Z /\
  (do_high x <-> units x < units 4)%Z /\
  (nh3_safe x <-> units x <= units 0.02)%Z /\
  (nh3_moderate x <-> units 0.02 < units x <= units 0.05)%Z /\
  (nh3_high x <-> units 0.05 < units x)%Z.
Proof.
  intros D F. repeat (split; [exact_values|]). exact_values.
Qed.

End ExactTable.

(* ================================================================== *)
(** * Further properties of the classifier *)

Section ClassifierMore.
Local Open Scope pyfloat_scope.

Lemma non_finite_bool (x : float) : non_finite x -> isnan x || isinf x = true.
Proof. intros [H|H]; rewrite H; [reflexivity | apply orb_true_r]. Qed.

Lemma finite_bool (x : float) : finite x -> isnan x || isinf x = false.
Proof. intros [H1 H2]. now rewrite H1, H2. Qed.

(** X1.  The finiteness loop runs before the range test and stops at the
    first NaN or infinity in the order temp_c, sal_psu, do_mgL, nh3_mgL: the
    message names that input; "Invalid physical ranges." is raised only when
    all four are finite. *)
Theorem error_message_precedence (t s o a : float) :
  (non_finite t ->
     Testing.classify_marine_health t s o a
       = Raise (ValueError "temp_c must be a finite number.")) /\
  (finite t -> non_finite s ->
     Testing.classify_marine_health t s o a
       = Raise (ValueError "sal_psu must be a finite number.")) /\
  (finite t -> finite s -> non_finite o ->
     Testing.classify_marine_health t s o a
       = Raise (ValueError "do_mgL must be a finite number.")) /\
  (finite t -> finite s -> finite o -> non_finite a ->
     Testing.classify_marine_health t s o a
       = Raise (ValueError "nh3_mgL must be a finite number.")) /\
  (finite t -> finite s -> finite o -> finite a ->
     t <= 0 \/ s <= 0 \/ o <= 0 \/ a < 0 ->
     Testing.classify_marine_health t s o a
       = Raise (ValueError "Invalid physical ranges.")).
Proof.
  unfold Testing.classify_marine_health. cbn [Testing.check_finite].
  repeat split; intros;
    repeat match goal with
    | H : finite _ |- _ => apply finite_bool in H; rewrite H
    | H : non_finite _ |- _ => apply non_finite_bool in H; rewrite H
    end; try reflexivity.
  cbn [bind]. unfold_cmp.
  repeat match goal with H : _ \/ _ |- _ => destruct H as [H|H] end;
    match goal with
    | H : SFleb _ _ = true |- _ => rewrite H
    | H : SFltb _ _ = true |- _ => rewrite H
    end; rewrite ?orb_true_r; reflexivity.
Qed.

Lemma error_message_precedence_witness :
  (finite (-1) /\ non_finite nan) /\
  Testing.classify_marine_health (-1) nan 7 0
    = Raise (ValueError "sal_psu must be a finite number.").
Proof.
  assert (F : finite (-1)) by (split; reflexivity).
  assert (N : non_finite nan) by (left; reflexivity).
  split; [exact (conj F N)|].
  exact (proj1 (proj2 (error_message_precedence (-1) nan 7 0)) F N).
Defined.

(** Every bucket is one of the three states. *)
Lemma bucket_cases (t s o a : float) :
  (Testing.bucket_temp t = "safe" \/ Testing.bucket_temp t = "moderate"
     \/ Testing.bucket_temp t = "high") /\
  (Testing.bucket_sal s = "safe" \/ Testing.bucket_sal s = "moderate"
     \/ Testing.bucket_sal s = "high") /\
  (Testing.bucket_do o = "safe" \/ Testing.bucket_do o = "moderate"
     \/ Testing.bucket_do o = "high") /\
  (Testing.bucket_nh3 a = "safe" \/ Testing.bucket_nh3 a = "moderate"
     \/ Testing.bucket_nh3 a = "high").
Proof.
  unfold Testing.bucket_temp, Testing.bucket_sal, Testing.bucket_do,
    Testing.bucket_nh3.
  repeat split;
    repeat match goal with |- context [if ?c then _ else _] => destruct c end;
    tauto.
Qed.

End ClassifierMore.

Ltac each_bucket t s o a :=
  destruct (bucket_cases t s o a) as
    ([Bt|[Bt|Bt]] & [Bs|[Bs|Bs]] & [Bo|[Bo|Bo]] & [Ba|[Ba|Ba]]);
  rewrite ?Bt, ?Bs, ?Bo, ?Ba.

Section RiskAndFactors.
Local Open Scope pyfloat_scope.

(** X2.  On a valid input the risk is "low" exactly when the factor list is
    empty, and a "medium" or "high" risk always comes with at least one
    factor. *)
Theorem low_risk_iff_no_factor (t s o a : float) :
  valid_input t s o a ->
  exists r,
    Testing.classify_marine_health t s o a = Ret r /\
    (risk r = "low" <-> factors r = []) /\
    (risk r = "medium" \/ risk r = "high" <-> factors r <> []).
Proof.
  intros V. eexists. split; [apply (classify_valid t s o a V)|].
  cbn [risk factors].
  each_bucket t s o a; cbn; intuition (try discriminate; try congruence).
Qed.

Lemma low_risk_iff_no_factor_witness :
  valid_input 26 32 7 0.0 /\
  exists r,
    Testing.classify_marine_health 26 32 7 0.0 = Ret r /\
    (risk r = "low" <-> factors r = []) /\
    (risk r = "medium" \/ risk r = "high" <-> factors r <> []).
Proof.
  assert (V : valid_input 26 32 7 0.0) by (vm_compute; tauto).
  split; [exact V | exact (low_risk_iff_no_factor 26 32 7 0.0 V)].
Defined.

End RiskAndFactors.

(** ** How the risk moves with one reading *)

Ltac sev := cbn [andb orb negb]; vm_compute; try lia; try (intros; discriminate).

(** After the zones of several readings are fixed: drop the cases that
    break a fact relating them. *)
Ltac settle :=
  repeat match goal with
  | H : false = true \/ false = true |- _ =>
      exfalso; destruct H; discriminate
  | H : true = true -> false = true |- _ => exfalso; discriminate (H eq_refl)
  | H : true = true \/ _ |- _ => clear H
  | H : _ \/ true = true |- _ => clear H
  | H : true = true -> true = true |- _ => clear H
  | H : false = true -> _ |- _ => clear H
  end.

Section RiskOrder.
Local Open Scope pyfloat_scope.

Lemma le_not_nan (x y : float) : x <= y -> isnan x = false /\ isnan y = false.
Proof. unfold le. destruct x, y; try discriminate; split; reflexivity. Qed.

(** A float that is not a NaN is on one side of a threshold. *)
Lemma threshold_sides (c x : float) :
  isnan c = false -> isnan x = false ->
  SFleb c x = true \/ SFltb x c = true.
Proof.
  intros Hc Hx. rewrite (ltb_negb_leb x c Hx Hc).
  destruct (SFleb c x); [left | right]; reflexivity.
Qed.

(** The risk is the worst of the four buckets. *)
Lemma severity_of_risk (t s o a : float) :
  severity
    (if contains "high" [Testing.bucket_temp t; Testing.bucket_sal s;
                         Testing.bucket_do o; Testing.bucket_nh3 a]
     then "high"
     else if contains "moderate" [Testing.bucket_temp t; Testing.bucket_sal s;
                                  Testing.bucket_do o; Testing.bucket_nh3 a]
     then "medium" else "low")
  = Nat.max (severity (Testing.bucket_temp t))
      (Nat.max (severity (Testing.bucket_sal s))
         (Nat.max (severity (Testing.bucket_do o))
                  (severity (Testing.bucket_nh3 a)))).
Proof. each_bucket t s o a; reflexivity. Qed.

Lemma severity_of_classify (t s o a : float) :
  valid_input t s o a ->
  exists r,
    Testing.classify_marine_health t s o a = Ret r /\
    severity (risk r)
    = Nat.max (severity (Testing.bucket_temp t))
        (Nat.max (severity (Testing.bucket_sal s))
           (Nat.max (severity (Testing.bucket_do o))
                    (severity (Testing.bucket_nh3 a)))).
Proof.
  intros V. eexists. split; [apply (classify_valid t s o a V)|].
  cbn [risk]. apply severity_of_risk.
Qed.

Lemma bucket_do_antitone (o1 o2 : float) :
  o1 <= o2 ->
  (severity (Testing.bucket_do o2) <= severity (Testing.bucket_do o1))%nat.
Proof.
  intros L.
  assert (C6 : SFleb 6 o1 = true -> SFleb 6 o2 = true)
    by (intro H; exact (le_trans 6 o1 o2 H L)).
  assert (C4 : SFleb 4 o1 = true -> SFleb 4 o2 = true)
    by (intro H; exact (le_trans 4 o1 o2 H L)).
  destruct (le_not_nan o1 o2 L) as [N1 N2].
  pose proof (threshold_sides 6 o1 eq_refl N1) as T1.
  pose proof (threshold_sides 6 o2 eq_refl N2) as T2.
  clear L N1 N2. unfold Testing.bucket_do. unfold_cmp.
  zones_of o1 do_zones; zones_of o2 do_zones; settle; sev.
Qed.

Lemma bucket_nh3_monotone (a1 a2 : float) :
  a1 <= a2 ->
  (severity (Testing.bucket_nh3 a1) <= severity (Testing.bucket_nh3 a2))%nat.
Proof.
  intros L.
  assert (C2 : SFltb 0.02 a1 = true -> SFltb 0.02 a2 = true)
    by (intro H; exact (lt_le_trans 0.02 a1 a2 H L)).
  assert (C5 : SFltb 0.05 a1 = true -> SFltb 0.05 a2 = true)
    by (intro H; exact (lt_le_trans 0.05 a1 a2 H L)).
  destruct (le_not_nan a1 a2 L) as [N1 N2].
  pose proof (threshold_sides 0 a1 eq_refl N1) as T1.
  pose proof (threshold_sides 0 a2 eq_refl N2) as T2.
  clear L N1 N2. unfold Testing.bucket_nh3. unfold_cmp.
  zones_of a1 nh3_zones; zones_of a2 nh3_zones; settle; sev.
Qed.

(** X3.  More dissolved oxygen never makes the risk worse, and more ammonia
    never makes it better, the other three readings unchanged. *)
Theorem risk_monotone_in_oxygen_and_ammonia (t s o a x : float) :
  valid_input t s o a ->
  (valid_input t s x a -> o <= x ->
     exists r1 r2,
       Testing.classify_marine_health t s o a = Ret r1 /\
       Testing.classify_marine_health t s x a = Ret r2 /\
       (severity (risk r2) <= severity (risk r1))%nat) /\
  (valid_input t s o x -> a <= x ->
     exists r1 r2,
       Testing.classify_marine_health t s o a = Ret r1 /\
       Testing.classify_marine_health t s o x = Ret r2 /\
       (severity (risk r1) <= severity (risk r2))%nat).
Proof.
  intros V. destruct (severity_of_classify t s o a V) as (r1 & E1 & S1).
  split; intros V' L.
  - destruct (severity_of_classify t s x a V') as (r2 & E2 & S2).
    exists r1, r2. repeat split; try assumption.
    pose proof (bucket_do_antitone o x L). lia.
  - destruct (severity_of_classify t s o x V') as (r2 & E2 & S2).
    exists r1, r2. repeat split; try assumption.
    pose proof (bucket_nh3_monotone a x L). lia.
Qed.

Lemma risk_monotone_in_oxygen_and_ammonia_witness :
  (valid_input 26 32 3.0 0.03 /\ valid_input 26 32 7 0.03 /\ 3.0 <= 7) /\
  exists r1 r2,
    Testing.classify_marine_health 26 32 3.0 0.03 = Ret r1 /\
    Testing.classify_marine_health 26 32 7 0.03 = Ret r2 /\
    (severity (risk r2) <= severity (risk r1))%nat.
Proof.
  assert (V : valid_input 26 32 3.0 0.03) by (vm_compute; tauto).
  assert (V' : valid_input 26 32 7 0.03) by (vm_compute; tauto).
  assert (L : 3.0 <= 7) by reflexivity.
  split; [exact (conj V (conj V' L))|].
  exact (proj1 (risk_monotone_in_oxygen_and_ammonia 26 32 3.0 0.03 7 V) V' L).
Defined.

Lemma bucket_temp_between (t1 t t2 : float) :
  t1 <= t -> t <= t2 ->
  (severity (Testing.bucket_temp t)
   <= Nat.max (severity (Testing.bucket_temp t1))
              (severity (Testing.bucket_temp t2)))%nat.
Proof.
  intros L1 L2.
  assert (A1 : SFleb 22 t1 = true -> SFleb 22 t = true)
    by (intro H; exact (le_trans 22 t1 t H L1)).
  assert (A2 : SFleb 24 t1 = true -> SFleb 24 t = true)
    by (intro H; exact (le_trans 24 t1 t H L1)).
  assert (A3 : SFltb 28 t1 = true -> SFltb 28 t = true)
    by (intro H; exact (lt_le_trans 28 t1 t H L1)).
  assert (A4 : SFltb 30 t1 = true -> SFltb 30 t = true)
    by (intro H; exact (lt_le_trans 30 t1 t H L1)).
  assert (B1 : SFleb 22 t = true -> SFleb 22 t2 = true)
    by (intro H; exact (le_trans 22 t t2 H L2)).
  assert (B2 : SFleb 24 t = true -> SFleb 24 t2 = true)
    by (intro H; exact (le_trans 24 t t2 H L2)).
  assert (B3 : SFltb 28 t = true -> SFltb 28 t2 = true)
    by (intro H; exact (lt_le_trans 28 t t2 H L2)).
  assert (B4 : SFltb 30 t = true -> SFltb 30 t2 = true)
    by (intro H; exact (lt_le_trans 30 t t2 H L2)).
  destruct (le_not_nan t1 t L1) as [N1 N].
  destruct (le_not_nan t t2 L2) as [_ N2].
  pose proof (threshold_sides 22 t1 eq_refl N1) as T1.
  pose proof (threshold_sides 22 t eq_refl N) as T.
  pose proof (threshold_sides 22 t2 eq_refl N2) as T2.
  clear L1 L2 N1 N N2. unfold Testing.bucket_temp. unfold_cmp.
  zones_of t temp_zones; zones_of t1 temp_zones; settle;
    zones_of t2 temp_zones; settle; sev.
Qed.

Lemma bucket_sal_between (s1 s s2 : float) :
  s1 <= s -> s <= s2 ->
  (severity (Testing.bucket_sal s)
   <= Nat.max (severity (Testing.bucket_sal s1))
              (severity (Testing.bucket_sal s2)))%nat.
Proof.
  intros L1 L2.
  assert (A1 : SFleb 28 s1 = true -> SFleb 28 s = true)
    by (intro H; exact (le_trans 28 s1 s H L1)).
  assert (A2 : SFleb 30 s1 = true -> SFleb 30 s = true)
    by (intro H; exact (le_trans 30 s1 s H L1)).
  assert (A3 : SFltb 35 s1 = true -> SFltb 35 s = true)
    by (intro H; exact (lt_le_trans 35 s1 s H L1)).
  assert (A4 : SFltb 37 s1 = true -> SFltb 37 s = true)
    by (intro H; exact (lt_le_trans 37 s1 s H L1)).
  assert (B1 : SFleb 28 s = true -> SFleb 28 s2 = true)
    by (intro H; exact (le_trans 28 s s2 H L2)).
  assert (B2 : SFleb 30 s = true -> SFleb 30 s2 = true)
    by (intro H; exact (le_trans 30 s s2 H L2)).
  assert (B3 : SFltb 35 s = true -> SFltb 35 s2 = true)
    by (intro H; exact (lt_le_trans 35 s s2 H L2)).
  assert (B4 : SFltb 37 s = true -> SFltb 37 s2 = true)
    by (intro H; exact (lt_le_trans 37 s s2 H L2)).
  destruct (le_not_nan s1 s L1) as [N1 N].
  destruct (le_not_nan s s2 L2) as [_ N2].
  pose proof (threshold_sides 28 s1 eq_refl N1) as T1.
  pose proof (threshold_sides 28 s eq_refl N) as T.
  pose proof (threshold_sides 28 s2 eq_refl N2) as T2.
  clear L1 L2 N1 N N2. unfold Testing.bucket_sal. unfold_cmp.
  zones_of s sal_zones; zones_of s1 sal_zones; settle;
    zones_of s2 sal_zones; settle; sev.
Qed.

(** X4.  Temperature and salinity have no hole: at a value between two
    others, the other three readings unchanged, the risk is never worse than
    at the worse of the two ends. *)
Theorem risk_between_two_readings (t s o a lo hi : float) :
  valid_input t s o a ->
  (valid_input lo s o a -> valid_input hi s o a -> lo <= t -> t <= hi ->
     exists r r1 r2,
       Testing.classify_marine_health t s o a = Ret r /\
       Testing.classify_marine_health lo s o a = Ret r1 /\
       Testing.classify_marine_health hi s o a = Ret r2 /\
       (severity (risk r) <= Nat.max (severity (risk r1)) (severity (risk r2)))%nat) /\
  (valid_input t lo o a -> valid_input t hi o a -> lo <= s -> s <= hi ->
     exists r r1 r2,
       Testing.classify_marine_health t s o a = Ret r /\
       Testing.classify_marine_health t lo o a = Ret r1 /\
       Testing.classify_marine_health t hi o a = Ret r2 /\
       (severity (risk r) <= Nat.max (severity (risk r1)) (severity (risk r2)))%nat).
Proof.
  intros V. destruct (severity_of_classify t s o a V) as (r & E & S).
  split; intros V1 V2 L1 L2.
  - destruct (severity_of_classify lo s o a V1) as (r1 & E1 & S1).
    destruct (severity_of_classify hi s o a V2) as (r2 & E2 & S2).
    exists r, r1, r2. repeat split; try assumption.
    pose proof (bucket_temp_between lo t hi L1 L2). lia.
  - destruct (severity_of_classify t lo o a V1) as (r1 & E1 & S1).
    destruct (severity_of_classify t hi o a V2) as (r2 & E2 & S2).
    exists r, r1, r2. repeat split; try assumption.
    pose proof (bucket_sal_between lo s hi L1 L2). lia.
Qed.

Lemma risk_between_two_readings_witness :
  (valid_input 26 32 7 0.0 /\ valid_input 23 32 7 0.0 /\
   valid_input 29 32 7 0.0 /\ 23 <= 26 /\ 26 <= 29) /\
  exists r r1 r2,
    Testing.classify_marine_health 26 32 7 0.0 = Ret r /\
    Testing.classify_marine_health 23 32 7 0.0 = Ret r1 /\
    Testing.classify_marine_health 29 32 7 0.0 = Ret r2 /\
    (severity (risk r) <= Nat.max (severity (risk r1)) (severity (risk r2)))%nat.
Proof.
  assert (V : valid_input 26 32 7 0.0) by (vm_compute; tauto).
  assert (V1 : valid_input 23 32 7 0.0) by (vm_compute; tauto).
  assert (V2 : valid_input 29 32 7 0.0) by (vm_compute; tauto).
  assert (L1 : 23 <= 26) by reflexivity.
  assert (L2 : 26 <= 29) by reflexivity.
  split; [exact (conj V (conj V1 (conj V2 (conj L1 L2))))|].
  exact (proj1 (risk_between_two_readings 26 32 7 0.0 23 29 V) V1 V2 L1 L2).
Defined.

End RiskOrder.

(** ** More on the decision evaluator *)

Ltac lookup_key :=
  rewrite eval_decisions_items;
  cbn [PyDict.getitem String.eqb Ascii.eqb Bool.eqb].

Section EvaluatorMore.
Local Open Scope pyfloat_scope.

Lemma returns_iff_valid (t s o a : float) :
  (exists r, Testing.classify_marine_health t s o a = Ret r)
  <-> valid_input t s o a.
Proof.
  split.
  - intros [r Hr]. destruct (valid_or_invalid t s o a) as [V|I]; [exact V|].
    destruct (classify_invalid t s o a I) as [msg E]. congruence.
  - intros V. eexists. apply (classify_valid t s o a V).
Qed.

(** X5.  On every input the paired decisions exclude each other: a reading
    is never both safe and moderate (temperature, salinity) nor both safe and
    high (dissolved oxygen, ammonia), and the two aggregate decisions are
    never both true. *)
Theorem paired_decisions_exclusive (t s o a : float) :
  let d := C2.eval_decisions t s o a in
  ~ (PyDict.getitem d "T_safe_24_28" = Some true /\
     PyDict.getitem d "T_moderate_22_24_or_28_30" = Some true) /\
  ~ (PyDict.getitem d "S_safe_30_35" = Some true /\
     PyDict.getitem d "S_moderate_28_30_or_35_37" = Some true) /\
  ~ (PyDict.getitem d "DO_safe_ge6" = Some true /\
     PyDict.getitem d "DO_high_lt4" = Some true) /\
  ~ (PyDict.getitem d "NH3_safe_le_0_02" = Some true /\
     PyDict.getitem d "NH3_high_gt_0_05" = Some true) /\
  ~ (PyDict.getitem d "AGG_has_high" = Some true /\
     PyDict.getitem d "AGG_has_moderate" = Some true).
Proof.
  cbv zeta.
  split; [|split; [|split; [|split]]].
  - lookup_key. unfold_cmp. zones_of t temp_zones; cbn; intuition discriminate.
  - lookup_key. unfold_cmp. zones_of s sal_zones; cbn; intuition discriminate.
  - lookup_key. unfold_cmp. zones_of o do_zones; cbn; intuition discriminate.
  - lookup_key. unfold_cmp. zones_of a nh3_zones; cbn; intuition discriminate.
  - rewrite agg_high_bool, agg_moderate_bool.
    destruct (contains "high" _); cbn; intuition discriminate.
Qed.

(** X6.  The classifier accepts an input exactly when the four readings are
    finite and the four validation decisions are true; the decisions alone
    do not tell, since they are all true at an infinite temperature. *)
Theorem accepted_iff_finite_and_validated (t s o a : float) :
  let d := C2.eval_decisions t s o a in
  ((exists r, C2.classify_marine_health t s o a = Ret r) <->
   (finite t /\ finite s /\ finite o /\ finite a) /\
   PyDict.getitem d "VAL_temp_gt0" = Some true /\
   PyDict.getitem d "VAL_sal_gt0" = Some true /\
   PyDict.getitem d "VAL_do_gt0" = Some true /\
   PyDict.getitem d "VAL_nh3_ge0" = Some true) /\
  (let d' := C2.eval_decisions inf 32 7 0 in
   PyDict.getitem d' "VAL_temp_gt0" = Some true /\
   PyDict.getitem d' "VAL_sal_gt0" = Some true /\
   PyDict.getitem d' "VAL_do_gt0" = Some true /\
   PyDict.getitem d' "VAL_nh3_ge0" = Some true /\
   C2.classify_marine_health inf 32 7 0
     = Raise (ValueError "temp_c must be a finite number.")).
Proof.
  cbv zeta. split; [|repeat split].
  rewrite (copies_agree t s o a), returns_iff_valid.
  lookup_key. unfold valid_input. unfold_cmp.
  intuition congruence.
Qed.

End EvaluatorMore.

(* ================================================================== *)
(** * The coverage bookkeeping of the branch suite *)

Section DictLaws.
Variable V : Type.
Implicit Types (d : PyDict.dict V) (k : string) (v : V).

Lemma getitem_setitem_same d k v :
  PyDict.getitem (PyDict.setitem d k v) k = Some v.
Proof.
  induction d as [|[k' v'] d IH]; cbn.
  - now rewrite String.eqb_refl.
  - destruct (String.eqb k' k) eqn:E; cbn; rewrite E; [reflexivity | exact IH].
Qed.

Lemma getitem_setitem_other d k k' v :
  k <> k' -> PyDict.getitem (PyDict.setitem d k v) k' = PyDict.getitem d k'.
Proof.
  intros N. induction d as [|[k0 v0] d IH]; cbn.
  - destruct (String.eqb_spec k k'); [contradiction | reflexivity].
  - destruct (String.eqb_spec k0 k) as [E|E]; cbn.
    + subst k0. destruct (String.eqb_spec k k'); [contradiction | reflexivity].
    + destruct (String.eqb k0 k'); [reflexivity | exact IH].
Qed.

Lemma keys_setitem_present d k v :
  In k (PyDict.keys d) -> PyDict.keys (PyDict.setitem d k v) = PyDict.keys d.
Proof.
  induction d as [|[k0 v0] d IH]; cbn; [contradiction|].
  intros H. destruct (String.eqb_spec k0 k) as [E|E]; cbn; [reflexivity|].
  f_equal. apply IH. destruct H; [contradiction | assumption].
Qed.

Lemma keys_setitem_absent d k v :
  ~ In k (PyDict.keys d) ->
  PyDict.keys (PyDict.setitem d k v) = PyDict.keys d ++ [k].
Proof.
  induction d as [|[k0 v0] d IH]; cbn; [reflexivity|].
  intros H. destruct (String.eqb_spec k0 k) as [E|E]; cbn.
  - exfalso. apply H. now left.
  - f_equal. apply IH. intros I. apply H. now right.
Qed.

Lemma getitem_some_in_keys d k v :
  PyDict.getitem d k = Some v -> In k (PyDict.keys d).
Proof.
  induction d as [|[k0 v0] d IH]; cbn; [discriminate|].
  destruct (String.eqb_spec k0 k) as [E|E]; [now left|].
  intros H. right. exact (IH H).
Qed.

End DictLaws.

Section Bookkeeping.

Lemma cov_has_setitem (cov : C2.coverage) (k : string) (v : bool) (tf : set bool)
  (k' : string) (b : bool) :
  PyDict.getitem cov k = Some tf ->
  (cov_has (PyDict.setitem cov k (set_add bool_dec v tf)) k' b
   <-> cov_has cov k' b \/ (k' = k /\ b = v)).
Proof.
  intros G. unfold cov_has.
  destruct (string_dec k k') as [E|N].
  - subst k'. rewrite getitem_setitem_same, G. split.
    + intros (tf' & E & I). injection E as <-.
      apply set_add_iff in I. destruct I as [I|I]; [right | left; exists tf]; auto.
    + intros [(tf' & E & I)|[_ ->]]; eexists; split; try reflexivity.
      * injection E as <-. apply set_add_iff. now right.
      * apply set_add_iff. now left.
  - rewrite (getitem_setitem_other _ cov k k' _ N). split.
    + intros H. now left.
    + intros [H|[E _]]; [exact H | congruence].
Qed.

Lemma record_decisions_spec (cov : C2.coverage) (items : list (string * bool)) :
  (forall k v, In (k, v) items -> In k (PyDict.keys cov)) ->
  exists cov',
    C2.record_decisions cov items = Ret cov' /\
    PyDict.keys cov' = PyDict.keys cov /\
    forall k b, cov_has cov' k b <-> cov_has cov k b \/ In (k, b) items.
Proof.
  revert cov. induction items as [|[k v] items IH]; intros cov H.
  - exists cov. cbn. intuition.
  - cbn [C2.record_decisions].
    destruct (getitem_in_keys _ cov k (H k v (or_introl eq_refl))) as [tf G].
    rewrite G.
    assert (K : PyDict.keys (PyDict.setitem cov k (set_add bool_dec v tf))
                = PyDict.keys cov)
      by (apply keys_setitem_present; exact (H k v (or_introl eq_refl))).
    destruct (IH (PyDict.setitem cov k (set_add bool_dec v tf))) as (cov' & R & K' & M).
    { intros k0 v0 I. rewrite K. apply (H k0 v0). now right. }
    exists cov'. split; [exact R|]. split; [congruence|].
    intros k0 b. rewrite M, (cov_has_setitem cov k v tf k0 b G). cbn [In].
    intuition (try congruence).
Qed.

(** X7.  Recording the decisions of one input, when the coverage has an
    entry for each of their names: nothing is raised, the names of the
    coverage are unchanged, and a value is in an entry afterwards exactly when
    it was there before or the input gave it to that decision; nothing is ever
    removed. *)
Theorem record_decisions_adds (cov : C2.coverage) (items : list (string * bool)) :
  (forall k v, In (k, v) items -> In k (PyDict.keys cov)) ->
  exists cov',
    C2.record_decisions cov items = Ret cov' /\
    PyDict.keys cov' = PyDict.keys cov /\
    (forall k b, cov_has cov' k b <-> cov_has cov k b \/ In (k, b) items) /\
    (forall k b, cov_has cov k b -> cov_has cov' k b).
Proof.
  intros H. destruct (record_decisions_spec cov items H) as (cov' & R & K & M).
  exists cov'. repeat split; try assumption; try apply M.
  intros k b I. apply M. now left.
Qed.

Lemma record_decisions_adds_witness :
  (forall k v, In (k, v) (PyDict.items (C2.eval_decisions 26 32 7 0.005)%py) ->
     In k (PyDict.keys initial_coverage)) /\
  exists cov',
    C2.record_decisions initial_coverage
      (PyDict.items (C2.eval_decisions 26 32 7 0.005)%py) = Ret cov' /\
    PyDict.keys cov' = PyDict.keys initial_coverage /\
    (forall k b, cov_has cov' k b <->
       cov_has initial_coverage k b \/
       In (k, b) (PyDict.items (C2.eval_decisions 26 32 7 0.005)%py)) /\
    (forall k b, cov_has initial_coverage k b -> cov_has cov' k b).
Proof.
  assert (H : forall k v,
             In (k, v) (PyDict.items (C2.eval_decisions 26 32 7 0.005)%py) ->
             In k (PyDict.keys initial_coverage)).
  { intros k v I. apply (in_map fst) in I.
    change (map fst (PyDict.items (C2.eval_decisions 26 32 7 0.005)%py))
      with (PyDict.keys (C2.eval_decisions 26 32 7 0.005)%py) in I.
    rewrite eval_decisions_keys in I. exact I. }
  split; [exact H | exact (record_decisions_adds _ _ H)].
Defined.

(** X8.  A decision name without an entry in the coverage stops the
    recording with [KeyError] on that name; the names before it must have
    entries. *)
Theorem record_decisions_missing_key (cov : C2.coverage)
  (before after : list (string * bool)) (k : string) (v : bool) :
  (forall k0 v0, In (k0, v0) before -> In k0 (PyDict.keys cov)) ->
  ~ In k (PyDict.keys cov) ->
  C2.record_decisions cov (before ++ (k, v) :: after) = Raise (KeyError k).
Proof.
  revert cov. induction before as [|[k0 v0] before IH]; intros cov H N.
  - cbn. now rewrite (getitem_not_in_keys _ cov k N).
  - rewrite <- app_comm_cons. cbn [C2.record_decisions].
    destruct (getitem_in_keys _ cov k0 (H k0 v0 (or_introl eq_refl))) as [tf G].
    rewrite G.
    assert (K : PyDict.keys (PyDict.setitem cov k0 (set_add bool_dec v0 tf))
                = PyDict.keys cov)
      by (apply keys_setitem_present; exact (H k0 v0 (or_introl eq_refl))).
    apply IH; rewrite K; [|exact N].
    intros k1 v1 I. apply (H k1 v1). now right.
Qed.

Lemma record_decisions_missing_key_witness :
  ((forall k0 v0, In (k0, v0) [("VAL_temp_gt0", true)] ->
      In k0 (PyDict.keys initial_coverage)) /\
   ~ In "UNTRACKED" (PyDict.keys initial_coverage)) /\
  C2.record_decisions initial_coverage
    ([("VAL_temp_gt0", true)] ++ ("UNTRACKED", false) :: [("VAL_sal_gt0", true)])
  = Raise (KeyError "UNTRACKED").
Proof.
  assert (H : forall k0 v0, In (k0, v0) [("VAL_temp_gt0", true)] ->
                In k0 (PyDict.keys initial_coverage)).
  { intros k0 v0 [E|[]]. injection E as <- _. now left. }
  assert (N : ~ In "UNTRACKED" (PyDict.keys initial_coverage)).
  { cbn. intuition discriminate. }
  split; [exact (conj H N)|].
  exact (record_decisions_missing_key initial_coverage _ _ _ _ H N).
Defined.

End Bookkeeping.

(** ** The two loops of [main] and its report *)

Section Loops.

Lemma in_items_getitem (V : Type) (d : PyDict.dict V) (k : string) (v : V) :
  NoDup (PyDict.keys d) ->
  (In (k, v) (PyDict.items d) <-> PyDict.getitem d k = Some v).
Proof.
  unfold PyDict.items. induction d as [|[k0 v0] d IH]; cbn; intros N.
  - split; [contradiction | discriminate].
  - inversion N as [|? ? N1 N2]; subst.
    destruct (String.eqb_spec k0 k) as [E|E].
    + subst k0. split.
      * intros [I|I]; [congruence|].
        exfalso. apply N1. apply (in_map fst) in I. exact I.
      * intros I. left. congruence.
    + rewrite <- (IH N2). split.
      * intros [I|I]; [congruence | exact I].
      * intros I. now right.
Qed.

Lemma in_eval_items (inp : C2.Inputs) (k : string) (b : bool) :
  In (k, b) (PyDict.items (C2.eval_kw inp))
  <-> PyDict.getitem (C2.eval_kw inp) k = Some b.
Proof.
  apply in_items_getitem. unfold C2.eval_kw.
  rewrite eval_decisions_keys. apply decisions_distinct.
Qed.

Lemma record_eval (cov : C2.coverage) (inp : C2.Inputs) :
  PyDict.keys cov = C2.DECISIONS ->
  exists cov',
    C2.record_decisions cov (PyDict.items (C2.eval_kw inp)) = Ret cov' /\
    PyDict.keys cov' = C2.DECISIONS /\
    forall k b, cov_has cov' k b <->
      cov_has cov k b \/ PyDict.getitem (C2.eval_kw inp) k = Some b.
Proof.
  intros K.
  destruct (record_decisions_spec cov (PyDict.items (C2.eval_kw inp)))
    as (cov' & R & K' & M).
  { intros k v I. apply (in_map fst) in I. rewrite K.
    change (In k (PyDict.keys (C2.eval_kw inp))) in I.
    unfold C2.eval_kw in I. now rewrite eval_decisions_keys in I. }
  exists cov'. split; [exact R|]. split; [congruence|].
  intros k b. rewrite M, in_eval_items. reflexivity.
Qed.

Lemma seen_on_cons (inp : C2.Inputs) (inputs : list C2.Inputs) (k : string) (b : bool) :
  seen_on (inp :: inputs) k b
  <-> PyDict.getitem (C2.eval_kw inp) k = Some b \/ seen_on inputs k b.
Proof.
  unfold seen_on. split.
  - intros (i & [E|I] & G); [subst; now left | right; now exists i].
  - intros [G|(i & I & G)]; [exists inp | exists i]; split; auto; now (left + right).
Qed.

Lemma seen_on_app (l1 l2 : list C2.Inputs) (k : string) (b : bool) :
  seen_on (l1 ++ l2) k b <-> seen_on l1 k b \/ seen_on l2 k b.
Proof.
  unfold seen_on. split.
  - intros (i & I & G). apply in_app_or in I.
    destruct I; [left | right]; now exists i.
  - intros [(i & I & G)|(i & I & G)]; exists i; split; auto;
      apply in_or_app; auto.
Qed.

Lemma classify_kw_valid (inp : C2.Inputs) :
  valid_inputs inp -> exists out, C2.classify_kw inp = Ret out.
Proof.
  intros V. unfold C2.classify_kw. rewrite copies_agree.
  eexists. apply (classify_valid _ _ _ _ V).
Qed.

Lemma classify_kw_invalid (inp : C2.Inputs) :
  ~ valid_inputs inp -> exists msg, C2.classify_kw inp = Raise (ValueError msg).
Proof.
  intros N. unfold C2.classify_kw. rewrite copies_agree.
  apply classify_invalid.
  destruct (valid_or_invalid (C2.temp_c inp) (C2.sal_psu inp)
              (C2.do_mgL inp) (C2.nh3_mgL inp)) as [V|I];
    [contradiction | exact I].
Qed.

(** The first loop on entries with valid inputs. *)
Lemma run_tests_spec (tests : list (string * C2.Inputs * string)) :
  Forall valid_inputs (test_inputs tests) ->
  forall (cov : C2.coverage) (p : nat),
  PyDict.keys cov = C2.DECISIONS ->
  exists cov',
    C2.run_tests tests cov p
      = Ret (cov', (p + List.length (filter test_ok tests))%nat) /\
    PyDict.keys cov' = C2.DECISIONS /\
    forall k b, cov_has cov' k b <->
      cov_has cov k b \/ seen_on (test_inputs tests) k b.
Proof.
  induction tests as [|[[name inp] expected] tests IH]; intros V cov p K.
  - exists cov. cbn. rewrite Nat.add_0_r. repeat split; auto.
    + intros [H|(i & [] & _)]; exact H.
  - cbn [test_inputs map fst snd] in V. inversion V as [|? ? V1 V2]; subst.
    destruct (classify_kw_valid inp V1) as [out E].
    destruct (record_eval cov inp K) as (cov1 & R & K1 & M1).
    cbn [C2.run_tests]. rewrite E. cbn [bind]. rewrite R. cbn [bind].
    destruct (IH V2 cov1 (p + (if String.eqb (risk out) expected then 1 else 0))%nat K1)
      as (cov' & R' & K' & M').
    exists cov'. split.
    + rewrite R'. f_equal. f_equal. cbn [filter]. unfold test_ok at 2.
      cbn [fst snd]. rewrite E.
      destruct (String.eqb (risk out) expected); cbn [List.length]; lia.
    + split; [exact K'|]. intros k b.
      rewrite M', M1. cbn [test_inputs map fst snd].
      rewrite seen_on_cons. fold (test_inputs tests). tauto.
Qed.

(** The second loop, on any entries. *)
Lemma run_error_tests_spec (tests : list (string * C2.Inputs)) :
  forall (cov : C2.coverage) (p : nat),
  PyDict.keys cov = C2.DECISIONS ->
  exists cov',
    C2.run_error_tests tests cov p
      = Ret (cov', (p + List.length (filter error_test_ok tests))%nat) /\
    PyDict.keys cov' = C2.DECISIONS /\
    forall k b, cov_has cov' k b <->
      cov_has cov k b \/ seen_on (error_inputs tests) k b.
Proof.
  induction tests as [|[name inp] tests IH]; intros cov p K.
  - exists cov. cbn. rewrite Nat.add_0_r. repeat split; auto.
    + intros [H|(i & [] & _)]; exact H.
  - destruct (record_eval cov inp K) as (cov1 & R & K1 & M1).
    cbn [C2.run_error_tests].
    assert (O : exists ok,
               match C2.classify_kw inp with
               | Ret _ => Ret false
               | Raise (ValueError _) => Ret true
               | Raise e => Raise e
               end = Ret ok /\ error_test_ok (name, inp) = ok).
    { unfold error_test_ok. cbn [snd].
      destruct (C2.classify_kw inp) as [out|e] eqn:E.
      - now exists false.
      - unfold C2.classify_kw in E. rewrite copies_agree in E.
        destruct (valid_or_invalid (C2.temp_c inp) (C2.sal_psu inp)
                    (C2.do_mgL inp) (C2.nh3_mgL inp)) as [V|I].
        + rewrite (classify_valid _ _ _ _ V) in E. discriminate.
        + destruct (classify_invalid _ _ _ _ I) as [msg E'].
          rewrite E' in E. injection E as <-. now exists true. }
    destruct O as (ok & -> & O). cbn [bind]. rewrite R. cbn [bind].
    destruct (IH cov1 (p + (if ok then 1 else 0))%nat K1) as (cov' & R' & K' & M').
    exists cov'. split.
    + rewrite R'. f_equal. f_equal. cbn [filter]. rewrite O.
      destruct ok; cbn [List.length]; lia.
    + split; [exact K'|]. intros k b.
      rewrite M', M1. cbn [error_inputs map snd].
      rewrite seen_on_cons. fold (error_inputs tests). tauto.
Qed.

End Loops.

Section Report.

Lemma filter_length_le (A : Type) (f : A -> bool) (l : list A) :
  (List.length (filter f l) <= List.length l)%nat.
Proof.
  induction l as [|x l IH]; cbn; [lia|]. destruct (f x); cbn; lia.
Qed.

(** X9.  The first loop of [main], on entries whose inputs are all valid and
    a coverage with the 14 decision names: it returns; [passed] grows by the
    number of entries whose risk is the expected one, so by no more than the
    number of entries; and a value is in a coverage entry afterwards exactly
    when it was there before or one of the inputs gave it to that decision. *)
Theorem run_tests_counts_and_covers (tests : list (string * C2.Inputs * string))
  (cov : C2.coverage) (p : nat) :
  Forall valid_inputs (test_inputs tests) ->
  PyDict.keys cov = C2.DECISIONS ->
  exists cov' p',
    C2.run_tests tests cov p = Ret (cov', p') /\
    p' = (p + List.length (filter test_ok tests))%nat /\
    (p <= p' <= p + List.length tests)%nat /\
    PyDict.keys cov' = C2.DECISIONS /\
    forall k b, cov_has cov' k b <->
      cov_has cov k b \/ seen_on (test_inputs tests) k b.
Proof.
  intros V K. destruct (run_tests_spec tests V cov p K) as (cov' & R & K' & M).
  exists cov', (p + List.length (filter test_ok tests))%nat.
  pose proof (filter_length_le _ test_ok tests).
  repeat split; try assumption; try lia; apply M.
Qed.

Lemma run_tests_counts_and_covers_witness :
  (Forall valid_inputs (test_inputs C2.TESTS) /\
   PyDict.keys initial_coverage = C2.DECISIONS) /\
  exists cov' p',
    C2.run_tests C2.TESTS initial_coverage 0 = Ret (cov', p') /\
    p' = (0 + List.length (filter test_ok C2.TESTS))%nat /\
    (0 <= p' <= 0 + List.length C2.TESTS)%nat /\
    PyDict.keys cov' = C2.DECISIONS /\
    forall k b, cov_has cov' k b <->
      cov_has initial_coverage k b \/ seen_on (test_inputs C2.TESTS) k b.
Proof.
  assert (V : Forall valid_inputs (test_inputs C2.TESTS))
    by (repeat constructor; vm_compute; tauto).
  assert (K : PyDict.keys initial_coverage = C2.DECISIONS) by reflexivity.
  split; [exact (conj V K)|].
  exact (run_tests_counts_and_covers C2.TESTS initial_coverage 0 V K).
Defined.

Lemma run_tests_abort
  (before after : list (string * C2.Inputs * string))
  (name expected : string) (inp : C2.Inputs) (cov : C2.coverage) (p : nat) :
  Forall valid_inputs (test_inputs before) ->
  ~ valid_inputs inp ->
  PyDict.keys cov = C2.DECISIONS ->
  exists msg,
    C2.run_tests (before ++ (name, inp, expected) :: after) cov p
      = Raise (ValueError msg).
Proof.
  revert cov p. induction before as [|[[n0 i0] e0] before IH]; intros cov p V N K.
  - destruct (classify_kw_invalid inp N) as [msg E].
    exists msg. cbn. now rewrite E.
  - cbn [test_inputs map fst snd] in V. inversion V as [|? ? V1 V2]; subst.
    destruct (classify_kw_valid i0 V1) as [out E].
    destruct (record_eval cov i0 K) as (cov1 & R & K1 & _).
    rewrite <- app_comm_cons. cbn [C2.run_tests].
    rewrite E. cbn [bind]. rewrite R. cbn [bind].
    apply IH; assumption.
Qed.

(** X10.  An entry of [TESTS] whose input is invalid ends [main]: the
    classifier's [ValueError] is not caught in the first loop, so there is
    no summary and no coverage report, whatever the other entries are. *)
Theorem main_aborts_on_invalid_test_input
  (before after : list (string * C2.Inputs * string))
  (name expected : string) (inp : C2.Inputs)
  (ERROR_TESTS : list (string * C2.Inputs)) :
  Forall valid_inputs (test_inputs before) ->
  ~ valid_inputs inp ->
  exists msg,
    Runs.main_on (before ++ (name, inp, expected) :: after) ERROR_TESTS
      = Raise (ValueError msg).
Proof.
  intros V N. unfold Runs.main_on.
  destruct (run_tests_abort before after name expected inp
              initial_coverage 0 V N eq_refl) as [msg E].
  exists msg. fold initial_coverage. rewrite E. reflexivity.
Qed.

Lemma main_aborts_on_invalid_test_input_witness :
  (Forall valid_inputs
     (test_inputs [("ALL_SAFE", C2.mkInputs 26 32 7 0.005, "low")])%py /\
   ~ valid_inputs (C2.mkInputs 0 32 7 0)%py) /\
  exists msg,
    Runs.main_on
      ([("ALL_SAFE", C2.mkInputs 26 32 7 0.005, "low")]
       ++ ("ZERO_TEMP", C2.mkInputs 0 32 7 0, "high") :: [])%py
      C2.ERROR_TESTS
    = Raise (ValueError msg).
Proof.
  assert (V : Forall valid_inputs
                (test_inputs [("ALL_SAFE", C2.mkInputs 26 32 7 0.005, "low")])%py)
    by (repeat constructor; vm_compute; tauto).
  assert (N : ~ valid_inputs (C2.mkInputs 0 32 7 0)%py)
    by (vm_compute; intuition discriminate).
  split; [exact (conj V N)|].
  exact (main_aborts_on_invalid_test_input _ _ _ _ _ C2.ERROR_TESTS V N).
Defined.

Lemma error_test_ok_iff (c : string * C2.Inputs) :
  error_test_ok c = true <-> ~ valid_inputs (snd c).
Proof.
  unfold error_test_ok. split.
  - intros H V. destruct (classify_kw_valid (snd c) V) as [out E].
    rewrite E in H. discriminate.
  - intros N. destruct (classify_kw_invalid (snd c) N) as [msg E].
    now rewrite E.
Qed.

(** X11.  The second loop of [main] never raises, on any entries: a
    [ValueError] of the classifier is caught and counted as a pass, a returned
    result as a failure, so [passed] grows by the number of entries with an
    invalid input; the decisions of every entry are recorded. *)
Theorem run_error_tests_never_raises (tests : list (string * C2.Inputs))
  (cov : C2.coverage) (p : nat) :
  PyDict.keys cov = C2.DECISIONS ->
  exists cov' p',
    C2.run_error_tests tests cov p = Ret (cov', p') /\
    p' = (p + List.length (filter error_test_ok tests))%nat /\
    (forall c, error_test_ok c = true <-> ~ valid_inputs (snd c)) /\
    (p <= p' <= p + List.length tests)%nat /\
    PyDict.keys cov' = C2.DECISIONS /\
    forall k b, cov_has cov' k b <->
      cov_has cov k b \/ seen_on (error_inputs tests) k b.
Proof.
  intros K. destruct (run_error_tests_spec tests cov p K) as (cov' & R & K' & M).
  exists cov', (p + List.length (filter error_test_ok tests))%nat.
  pose proof (filter_length_le _ error_test_ok tests).
  repeat split; try assumption; try lia; try apply M; apply error_test_ok_iff.
Qed.

Lemma run_error_tests_never_raises_witness :
  PyDict.keys initial_coverage = C2.DECISIONS /\
  exists cov' p',
    C2.run_error_tests C2.ERROR_TESTS initial_coverage 0 = Ret (cov', p') /\
    p' = (0 + List.length (filter error_test_ok C2.ERROR_TESTS))%nat /\
    (forall c, error_test_ok c = true <-> ~ valid_inputs (snd c)) /\
    (0 <= p' <= 0 + List.length C2.ERROR_TESTS)%nat /\
    PyDict.keys cov' = C2.DECISIONS /\
    forall k b, cov_has cov' k b <->
      cov_has initial_coverage k b \/ seen_on (error_inputs C2.ERROR_TESTS) k b.
Proof.
  assert (K : PyDict.keys initial_coverage = C2.DECISIONS) by reflexivity.
  split; [exact K|].
  exact (run_error_tests_never_raises C2.ERROR_TESTS initial_coverage 0 K).
Defined.

Lemma getitem_some_in_items (V : Type) (d : PyDict.dict V) (k : string) (v : V) :
  PyDict.getitem d k = Some v -> In (k, v) d.
Proof.
  induction d as [|[k0 v0] d IH]; cbn; [discriminate|].
  destruct (String.eqb_spec k0 k) as [E|E].
  - intros H. left. congruence.
  - intros H. right. exact (IH H).
Qed.

Lemma initial_coverage_empty (k : string) (b : bool) :
  ~ cov_has initial_coverage k b.
Proof.
  intros (tf & G & I). apply getitem_some_in_items in G.
  vm_compute in G.
  repeat (destruct G as [G|G]; [injection G as _ <-; contradiction|]).
  contradiction.
Qed.

Lemma seen_bool_iff (cov : C2.coverage) (k : string) (b : bool) :
  PyDict.keys cov = C2.DECISIONS -> In k C2.DECISIONS ->
  (seen_bool cov k b = true <-> cov_has cov k b).
Proof.
  intros K I. unfold seen_bool, cov_has.
  destruct (getitem_in_keys _ cov k) as [tf G]; [now rewrite K|].
  rewrite G. split.
  - intros H. exists tf. split; [reflexivity|].
    exact (set_mem_correct1 bool_dec b tf H).
  - intros (tf' & E & H). injection E as <-.
    exact (set_mem_correct2 bool_dec b tf H).
Qed.

Lemma coverage_table_spec (cov : C2.coverage) (names : list string) :
  (forall n, In n names -> In n (PyDict.keys cov)) ->
  C2.coverage_table cov names
  = Ret (map (fun n => (n, seen_bool cov n true, seen_bool cov n false)) names).
Proof.
  induction names as [|n names IH]; intros H; [reflexivity|].
  cbn [C2.coverage_table map]. unfold C2.seen, seen_bool.
  destruct (getitem_in_keys _ cov n (H n (or_introl eq_refl))) as [tf G].
  rewrite G. cbn [bind]. rewrite IH by (intros m I; apply H; now right).
  reflexivity.
Qed.

Lemma both_seen_spec (cov : C2.coverage) (names : list string) :
  (forall n, In n names -> In n (PyDict.keys cov)) ->
  C2.both_seen cov names
  = Ret (filter (fun n => seen_bool cov n true && seen_bool cov n false) names).
Proof.
  induction names as [|n names IH]; intros H; [reflexivity|].
  cbn [C2.both_seen filter]. unfold C2.seen, seen_bool.
  destruct (getitem_in_keys _ cov n (H n (or_introl eq_refl))) as [tf G].
  rewrite G. cbn [bind].
  rewrite IH by (intros m I; apply H; now right).
  destruct (set_mem bool_dec true tf); cbn [bind andb]; reflexivity.
Qed.

End Report.

Section MainReport.

Lemma contains_filter (P : string -> bool) (l : list string) (n : string) :
  In n l -> contains n (filter P l) = P n.
Proof.
  intros I. destruct (P n) eqn:E.
  - apply contains_In. apply filter_In. now split.
  - apply not_true_iff_false. rewrite contains_In, filter_In. intuition congruence.
Qed.

Lemma verdict_line (missing : list string) :
  match missing with
  | [] => "[RESULT] C2 achieved for all tracked decisions."
  | _ => ("[RESULT] C2 NOT fully achieved for: " ++ String.concat ", " missing)%string
  end = "[RESULT] C2 achieved for all tracked decisions."
  <-> missing = [].
Proof.
  destruct missing as [|n missing]; [tauto|].
  split; [|discriminate].
  generalize (String.concat ", " (n :: missing)). intros s H.
  cbn in H. discriminate H.
Qed.

(** X12.  [main] on any two tables whose first one has only valid inputs
    (the program's [main] is the case of [TESTS] and [ERROR_TESTS]): it
    returns a report; [total] is the number of entries and [passed], never
    above it, counts the entries that met their expectation; the coverage
    table has one row per decision, in the order of [DECISIONS], telling
    whether some input of the two tables made the decision true and whether
    some made it false; [missing] holds exactly the decisions not seen both
    ways; and the result line says "achieved" exactly when nothing is
    missing. *)
Theorem main_report (TESTS : list (string * C2.Inputs * string))
  (ERROR_TESTS : list (string * C2.Inputs)) :
  Forall valid_inputs (test_inputs TESTS) ->
  let inputs := test_inputs TESTS ++ error_inputs ERROR_TESTS in
  C2.main = Runs.main_on C2.TESTS C2.ERROR_TESTS /\
  exists rep,
    Runs.main_on TESTS ERROR_TESTS = Ret rep /\
    C2.total rep = (List.length TESTS + List.length ERROR_TESTS)%nat /\
    C2.passed rep = (List.length (filter test_ok TESTS)
                     + List.length (filter error_test_ok ERROR_TESTS))%nat /\
    (C2.passed rep <= C2.total rep)%nat /\
    map (fun row => fst (fst row)) (C2.table rep) = C2.DECISIONS /\
    (forall k T F, In (k, T, F) (C2.table rep) ->
       (T = true <-> seen_on inputs k true) /\
       (F = true <-> seen_on inputs k false)) /\
    (forall k, In k (C2.missing rep) <->
       In k C2.DECISIONS /\
       ~ (seen_on inputs k true /\ seen_on inputs k false)) /\
    (C2.verdict rep = "[RESULT] C2 achieved for all tracked decisions."
     <-> C2.missing rep = []).
Proof.
  intros V inputs. split; [reflexivity|].
  unfold Runs.main_on. fold initial_coverage.
  destruct (run_tests_spec TESTS V initial_coverage 0 eq_refl) as (cov1 & R1 & K1 & M1).
  destruct (run_error_tests_spec ERROR_TESTS cov1
              (0 + List.length (filter test_ok TESTS)) K1) as (cov2 & R2 & K2 & M2).
  rewrite R1. cbn [bind]. rewrite R2. cbn [bind].
  assert (H : forall n, In n C2.DECISIONS -> In n (PyDict.keys cov2))
    by (intros n I; now rewrite K2).
  rewrite (coverage_table_spec cov2 C2.DECISIONS H). cbn [bind].
  rewrite (both_seen_spec cov2 C2.DECISIONS H). cbn [bind].
  assert (S : forall k b, In k C2.DECISIONS ->
                (seen_bool cov2 k b = true <-> seen_on inputs k b)).
  { intros k b I. rewrite (seen_bool_iff cov2 k b K2 I), M2, M1.
    unfold inputs. rewrite seen_on_app.
    pose proof (initial_coverage_empty k b). tauto. }
  eexists. split; [reflexivity|].
  cbn [C2.total C2.passed C2.table C2.missing C2.verdict].
  pose proof (filter_length_le _ test_ok TESTS).
  pose proof (filter_length_le _ error_test_ok ERROR_TESTS).
  split; [reflexivity|]. split; [lia|]. split; [lia|].
  split; [rewrite map_map; cbn [fst]; apply map_id|].
  split.
  { intros k T F I. apply in_map_iff in I. destruct I as (n & E & I).
    injection E as -> <- <-. split; apply S; exact I. }
  split; [|apply verdict_line].
  intros k. rewrite filter_In. split.
  - intros [I N]. split; [exact I|].
    rewrite (contains_filter _ C2.DECISIONS k I) in N.
    apply negb_true_iff in N. apply andb_false_iff in N.
    rewrite <- (S k true I), <- (S k false I).
    intros [A B]. destruct N; congruence.
  - intros [I N]. split; [exact I|].
    rewrite (contains_filter _ C2.DECISIONS k I).
    apply negb_true_iff. apply not_true_iff_false. intros A.
    apply andb_true_iff in A. apply N.
    rewrite <- (S k true I), <- (S k false I). exact A.
Qed.

Lemma main_report_witness :
  Forall valid_inputs (test_inputs C2.TESTS) /\
  (let inputs := test_inputs C2.TESTS ++ error_inputs C2.ERROR_TESTS in
   C2.main = Runs.main_on C2.TESTS C2.ERROR_TESTS /\
   exists rep,
     Runs.main_on C2.TESTS C2.ERROR_TESTS = Ret rep /\
     C2.total rep = (List.length C2.TESTS + List.length C2.ERROR_TESTS)%nat /\
     C2.passed rep = (List.length (filter test_ok C2.TESTS)
                      + List.length (filter error_test_ok C2.ERROR_TESTS))%nat /\
     (C2.passed rep <= C2.total rep)%nat /\
     map (fun row => fst (fst row)) (C2.table rep) = C2.DECISIONS /\
     (forall k T F, In (k, T, F) (C2.table rep) ->
        (T = true <-> seen_on inputs k true) /\
        (F = true <-> seen_on inputs k false)) /\
     (forall k, In k (C2.missing rep) <->
        In k C2.DECISIONS /\
        ~ (seen_on inputs k true /\ seen_on inputs k false)) /\
     (C2.verdict rep = "[RESULT] C2 achieved for all tracked decisions."
      <-> C2.missing rep = [])).
Proof.
  assert (V : Forall valid_inputs (test_inputs C2.TESTS))
    by (repeat constructor; vm_compute; tauto).
  split; [exact V | exact (main_report C2.TESTS C2.ERROR_TESTS V)].
Defined.

End MainReport.

(* ================================================================== *)
(** * The CSV writers and the unit tests *)

Section Writers.

Lemma classify_row_valid (r : Harness.Row) :
  valid_row r -> exists out, classify_row r = Ret out.
Proof. intros V. eexists. apply (classify_valid _ _ _ _ V). Qed.

Lemma classify_row_invalid (r : Harness.Row) :
  ~ valid_row r -> exists msg, classify_row r = Raise (ValueError msg).
Proof.
  intros N. apply classify_invalid.
  destruct (valid_or_invalid (Harness.Temp_C r) (Harness.Sal_PSU r)
              (Harness.DO_mgL r) (Harness.NH3_mgL r)) as [V|I];
    [contradiction | exact I].
Qed.

Lemma write_rows_step (i : nat) (r : Harness.Row) (rows : list Harness.Row)
  (file : list Harness.csv_record) (out : RiskResult) :
  classify_row r = Ret out ->
  Harness.write_rows i (r :: rows) file
  = Harness.write_rows (S i) rows (file ++ [record_of i r out]).
Proof.
  unfold classify_row. intros E. cbn [Harness.write_rows]. rewrite E.
  reflexivity.
Qed.

(** The writer loop on valid rows. *)
Lemma write_rows_valid (rows : list Harness.Row) :
  Forall valid_row rows ->
  forall (i : nat) (file : list Harness.csv_record),
  exists recs,
    Harness.write_rows i rows file = (file ++ recs, Ret tt) /\
    List.length recs = List.length rows /\
    forall n r, nth_error rows n = Some r ->
      exists out, classify_row r = Ret out /\
                  nth_error recs n = Some (record_of (i + n) r out).
Proof.
  induction rows as [|r rows IH]; intros V i file.
  - exists []. cbn. rewrite app_nil_r. repeat split.
    intros [|n] r H; discriminate H.
  - inversion V as [|? ? V1 V2]; subst.
    destruct (classify_row_valid r V1) as [out E].
    rewrite (write_rows_step i r rows file out E).
    destruct (IH V2 (S i) (file ++ [record_of i r out])) as (recs & W & L & N).
    exists (record_of i r out :: recs). split.
    + rewrite W, <- app_assoc. reflexivity.
    + split; [cbn; now rewrite L|].
      intros [|n] r' H; cbn in H.
      * injection H as <-. exists out. rewrite Nat.add_0_r. now split.
      * destruct (N n r' H) as (out' & E' & R'). exists out'.
        split; [exact E'|]. cbn [nth_error].
        now replace (i + S n)%nat with (S i + n)%nat by lia.
Qed.

(** X13.  The loop of the two CSV writers, on rows whose readings are all
    valid: nothing is raised and one record per row is appended to what was
    written, in the order of the rows; the record of the row at position [n]
    has the number [i + n] (so 1, 2, ... after the header), the row's case
    label, inputs and expected risk, the classifier's risk as actual output,
    and "Pass" exactly when the two risks are equal, "Fail" otherwise. *)
Theorem write_rows_one_record_per_row (rows : list Harness.Row) (i : nat)
  (file : list Harness.csv_record) :
  Forall valid_row rows ->
  exists recs,
    Harness.write_rows i rows file = (file ++ recs, Ret tt) /\
    List.length recs = List.length rows /\
    (forall n r, nth_error rows n = Some r ->
       exists out, classify_row r = Ret out /\
                   nth_error recs n = Some (record_of (i + n) r out)) /\
    (forall c, In c recs -> result_of c = "Pass" \/ result_of c = "Fail").
Proof.
  intros V. destruct (write_rows_valid rows V i file) as (recs & W & L & N).
  exists recs. repeat split; try assumption.
  intros c I. apply In_nth_error in I. destruct I as [n I].
  assert (B : (n < List.length rows)%nat).
  { rewrite <- L. apply nth_error_Some. congruence. }
  destruct (nth_error rows n) as [r|] eqn:R;
    [|apply nth_error_None in R; lia].
  destruct (N n r R) as (out & _ & R').
  rewrite R' in I. injection I as <-. unfold record_of. cbn [result_of].
  destruct (String.eqb _ _); [left | right]; reflexivity.
Qed.

Lemma write_rows_one_record_per_row_witness :
  Forall valid_row Harness.decision_table_rows /\
  exists recs,
    Harness.write_rows 1 Harness.decision_table_rows
      [Harness.header Harness.fieldnames]
    = ([Harness.header Harness.fieldnames] ++ recs, Ret tt) /\
    List.length recs = List.length Harness.decision_table_rows /\
    (forall n r, nth_error Harness.decision_table_rows n = Some r ->
       exists out, classify_row r = Ret out /\
                   nth_error recs n = Some (record_of (1 + n) r out)) /\
    (forall c, In c recs -> result_of c = "Pass" \/ result_of c = "Fail").
Proof.
  assert (V : Forall valid_row Harness.decision_table_rows)
    by (repeat constructor; vm_compute; tauto).
  split; [exact V|].
  exact (write_rows_one_record_per_row Harness.decision_table_rows 1
           [Harness.header Harness.fieldnames] V).
Defined.

(** X14.  A row with invalid readings stops a writer with the classifier's
    [ValueError]: the file keeps what was written before, the header and one
    record for each earlier row, and gets nothing for that row or any row
    after it. *)
Theorem write_rows_stops_at_invalid_row (before after : list Harness.Row)
  (r : Harness.Row) (i : nat) (file : list Harness.csv_record) :
  Forall valid_row before ->
  ~ valid_row r ->
  exists recs msg,
    Harness.write_rows i (before ++ r :: after) file
      = (file ++ recs, Raise (ValueError msg)) /\
    Harness.write_rows i before file = (file ++ recs, Ret tt) /\
    List.length recs = List.length before.
Proof.
  intros V N. destruct (classify_row_invalid r N) as [msg E].
  revert i file.
  induction before as [|r0 before IH]; intros i file.
  - exists [], msg. rewrite app_nil_l, app_nil_r.
    cbn [Harness.write_rows List.length].
    unfold classify_row in E. rewrite E. repeat split.
  - inversion V as [|? ? V1 V2]; subst.
    destruct (classify_row_valid r0 V1) as [out E0].
    destruct (IH V2 (S i) (file ++ [record_of i r0 out]))
      as (recs & msg' & W1 & W2 & L).
    exists (record_of i r0 out :: recs), msg'.
    rewrite <- app_comm_cons.
    rewrite !(write_rows_step i r0 _ file out E0), W1, W2, <- !app_assoc.
    cbn [List.length]. rewrite L. repeat split.
Qed.

Lemma write_rows_stops_at_invalid_row_witness :
  (Forall valid_row [Harness.mkRow "ALL_SAFE" 26 32 7 0.005 "low"]%py /\
   ~ valid_row (Harness.mkRow "NEG_NH3" 26 32 7 (-0.001) "low")%py) /\
  exists recs msg,
    Harness.write_rows 1
      ([Harness.mkRow "ALL_SAFE" 26 32 7 0.005 "low"]
       ++ Harness.mkRow "NEG_NH3" 26 32 7 (-0.001) "low"
       :: [Harness.mkRow "TEMP_MOD" 22.5 32 7 0.005 "medium"])%py
      [Harness.header Harness.fieldnames]
    = ([Harness.header Harness.fieldnames] ++ recs, Raise (ValueError msg)) /\
    Harness.write_rows 1 [Harness.mkRow "ALL_SAFE" 26 32 7 0.005 "low"]%py
      [Harness.header Harness.fieldnames]
    = ([Harness.header Harness.fieldnames] ++ recs, Ret tt) /\
    List.length recs
    = List.length [Harness.mkRow "ALL_SAFE" 26 32 7 0.005 "low"]%py.
Proof.
  assert (V : Forall valid_row [Harness.mkRow "ALL_SAFE" 26 32 7 0.005 "low"]%py)
    by (repeat constructor; vm_compute; tauto).
  assert (N : ~ valid_row (Harness.mkRow "NEG_NH3" 26 32 7 (-0.001) "low")%py)
    by (vm_compute; intuition discriminate).
  split; [exact (conj V N)|].
  exact (write_rows_stops_at_invalid_row _ _ _ 1%nat
           [Harness.header Harness.fieldnames] V N).
Defined.

End Writers.

Section UnitTests.

Lemma assertRisk_success (c : res RiskResult) (x : string) :
  Harness.assertRisk c x = Harness.success <-> risk_is c x.
Proof.
  unfold Harness.assertRisk, risk_is. destruct c as [out|e].
  - destruct (String.eqb_spec (risk out) x) as [E|E]; split.
    + intros _. now exists out.
    + reflexivity.
    + discriminate.
    + intros (r & R & H). injection R as <-. contradiction.
  - split; [discriminate | intros (r & R & _); discriminate R].
Qed.

Lemma and_then_success (o k : Harness.outcome) :
  Harness.and_then o k = Harness.success
  <-> o = Harness.success /\ k = Harness.success.
Proof. destruct o; cbn; intuition discriminate. Qed.

Lemma test_rows_success (rows : list Harness.Row) :
  Harness.test_rows rows = Harness.success <-> Forall row_ok rows.
Proof.
  induction rows as [|r rows IH]; cbn [Harness.test_rows].
  - split; [constructor | reflexivity].
  - rewrite and_then_success, assertRisk_success, IH. split.
    + intros [A B]. now constructor.
    + intros F. inversion F; subst. now split.
Qed.

(** Whatever happens, a writer only appends to the file. *)
Lemma write_rows_extends (rows : list Harness.Row) :
  forall (i : nat) (file : list Harness.csv_record),
  exists recs, fst (Harness.write_rows i rows file) = file ++ recs.
Proof.
  induction rows as [|r rows IH]; intros i file.
  - exists []. cbn. now rewrite app_nil_r.
  - cbn [Harness.write_rows].
    destruct (Testing.classify_marine_health _ _ _ _) as [out|e].
    + destruct (IH (S i) (file ++ [Harness.record i (Harness.Case r)
                  (Harness.inputs_of r) (Harness.Expected_Risk r) (risk out)
                  (if String.eqb (Harness.Expected_Risk r) (risk out)
                   then "Pass" else "Fail")])) as [recs E].
      eexists. rewrite E, <- app_assoc. reflexivity.
    + exists []. cbn. now rewrite app_nil_r.
Qed.

Lemma write_rows_all_pass (rows : list Harness.Row) :
  forall (i : nat) (file : list Harness.csv_record),
  (exists recs,
     Harness.write_rows i rows file = (file ++ recs, Ret tt) /\
     Forall (fun c => result_of c = "Pass") recs)
  <-> Forall row_ok rows.
Proof.
  induction rows as [|r rows IH]; intros i file.
  - split; [constructor|]. intros _. exists []. cbn.
    rewrite app_nil_r. split; [reflexivity | constructor].
  - split.
    + intros (recs & W & P).
      destruct (classify_row r) as [out|e] eqn:E.
      * rewrite (write_rows_step i r rows file out E) in W.
        destruct (write_rows_extends rows (S i) (file ++ [record_of i r out]))
          as [recs' X].
        rewrite W in X. cbn [fst] in X. rewrite <- app_assoc in X.
        apply app_inv_head in X. subst recs. cbn [app] in P.
        inversion P as [|? ? P1 P2]; subst.
        rewrite app_assoc in W.
        constructor.
        -- exists out. split; [exact E|].
           unfold record_of in P1. cbn [result_of] in P1.
           destruct (String.eqb_spec (Harness.Expected_Risk r) (risk out));
             [congruence | discriminate].
        -- apply (IH (S i) (file ++ [record_of i r out])).
           exists recs'. split; assumption.
      * unfold classify_row in E. cbn [Harness.write_rows] in W.
        rewrite E in W. discriminate W.
    + intros F. inversion F as [|? ? (out & E & R) F']; subst.
      rewrite (write_rows_step i r rows file out E).
      apply (IH (S i) (file ++ [record_of i r out])) in F'.
      destruct F' as (recs & W & P).
      exists (record_of i r out :: recs). split.
      * rewrite W, <- app_assoc. reflexivity.
      * constructor; [|exact P]. unfold record_of. cbn [result_of].
        rewrite R, String.eqb_refl. reflexivity.
Qed.

Lemma test_rows_error (rows : list Harness.Row) (e : exn) :
  Harness.test_rows rows = Harness.error e -> exists msg, e = ValueError msg.
Proof.
  induction rows as [|r rows IH]; cbn [Harness.test_rows]; [discriminate|].
  fold (classify_row r). destruct (classify_row r) as [out|e'] eqn:E; cbn.
  - destruct (String.eqb (risk out) (Harness.Expected_Risk r)); cbn;
      [exact IH | discriminate].
  - intros H. injection H as <-.
    destruct (valid_or_invalid (Harness.Temp_C r) (Harness.Sal_PSU r)
                (Harness.DO_mgL r) (Harness.NH3_mgL r)) as [V|I].
    + unfold classify_row in E. rewrite (classify_valid _ _ _ _ V) in E.
      discriminate.
    + destruct (classify_invalid _ _ _ _ I) as [msg E'].
      unfold classify_row in E. rewrite E' in E. injection E as <-.
      now exists msg.
Qed.

(** X15.  The table test and the CSV writer agree, on any table: the test
    passes exactly when every row's readings are classified with the row's
    expected risk, and that is exactly when the writer finishes and every
    record it wrote says "Pass"; a table test that ends in an error ends in
    the classifier's [ValueError]. *)
Theorem table_test_passes_iff_csv_all_pass (rows : list Harness.Row) :
  (Harness.test_rows rows = Harness.success <-> Forall row_ok rows) /\
  (Harness.test_rows rows = Harness.success <->
   exists recs,
     Harness.write_rows 1 rows [Harness.header Harness.fieldnames]
       = ([Harness.header Harness.fieldnames] ++ recs, Ret tt) /\
     Forall (fun c => result_of c = "Pass") recs) /\
  (forall e, Harness.test_rows rows = Harness.error e ->
     exists msg, e = ValueError msg).
Proof.
  split; [apply test_rows_success|].
  split; [|apply test_rows_error].
  rewrite test_rows_success. symmetry. apply write_rows_all_pass.
Qed.

(** X16.  The shipped suite: both CSV files are written in full, 12 and 24
    records after the header, every record says "Pass", and the seven test
    methods run without a failure or an error. *)
Theorem shipped_suite_passes :
  exists s,
    Harness.main = Ret s /\
    Harness.testsRun s = 7%nat /\ Harness.failures s = 0%nat /\
    Harness.errors s = 0%nat /\ Harness.wasSuccessful s = true /\
    (exists recs,
       Harness.decision_table_file s = Harness.header Harness.fieldnames :: recs /\
       List.length recs = 12%nat /\
       Forall (fun c => result_of c = "Pass") recs) /\
    (exists recs,
       Harness.boundary_file s = Harness.header Harness.fieldnames :: recs /\
       List.length recs = 24%nat /\
       Forall (fun c => result_of c = "Pass") recs).
Proof.
  eexists. split; [vm_compute; reflexivity|].
  cbn [Harness.testsRun Harness.failures Harness.errors Harness.wasSuccessful
       Harness.decision_table_file Harness.boundary_file].
  repeat split.
  - eexists. split; [reflexivity|]. split; [reflexivity|].
    repeat constructor.
  - eexists. split; [reflexivity|]. split; [reflexivity|].
    repeat constructor.
Qed.

End UnitTests.
